(** * video_download_api: the single-slot media cache of [main.py]

    A shallow embedding of the cache-name computation, the two expiry
    sweepers, the ffmpeg installer and the two request handlers, followed
    by the properties established about them. *)

From Stdlib Require Import ZArith Ascii String List Lia.
From stdpp Require Import base decidable option list strings gmap pretty.

Local Open Scope Z_scope.

(** ** Python values used by the module *)

(** A Python [str] is represented by the byte string of its UTF-8
    encoding: [str.encode()] then reads the bytes off one by one. *)
Definition encode (s : string) : list Z :=
  map (fun c => Z.of_N (N_of_ascii c)) (list_ascii_of_string s).

(** Truthiness of an [Optional[str]] global: [None] and [""] are false. *)
Definition truthy (o : option string) : bool :=
  match o with
  | None => false
  | Some EmptyString => false
  | Some _ => true
  end.

(** ** [hashlib.md5]: the MD5 message digest (RFC 1321) on 32-bit words *)

Module hashlib.

Definition mask32 : Z := 0xFFFFFFFF.

Definition add32 (a b : Z) : Z := Z.land (a + b) mask32.

Definition not32 (a : Z) : Z := Z.lxor a mask32.

Definition rotl32 (x c : Z) : Z :=
  Z.land (Z.lor (Z.shiftl x c) (Z.shiftr x (32 - c))) mask32.

(** Per-round shift amounts. *)
Definition S_table : list Z :=
  [ 7; 12; 17; 22; 7; 12; 17; 22; 7; 12; 17; 22; 7; 12; 17; 22;
    5; 9; 14; 20; 5; 9; 14; 20; 5; 9; 14; 20; 5; 9; 14; 20;
    4; 11; 16; 23; 4; 11; 16; 23; 4; 11; 16; 23; 4; 11; 16; 23;
    6; 10; 15; 21; 6; 10; 15; 21; 6; 10; 15; 21; 6; 10; 15; 21 ].

(** [K_table !! i = floor (2^32 * |sin (i + 1)|)]. *)
Definition K_table : list Z :=
  [ 0xd76aa478; 0xe8c7b756; 0x242070db; 0xc1bdceee;
    0xf57c0faf; 0x4787c62a; 0xa8304613; 0xfd469501;
    0x698098d8; 0x8b44f7af; 0xffff5bb1; 0x895cd7be;
    0x6b901122; 0xfd987193; 0xa679438e; 0x49b40821;
    0xf61e2562; 0xc040b340; 0x265e5a51; 0xe9b6c7aa;
    0xd62f105d; 0x02441453; 0xd8a1e681; 0xe7d3fbc8;
    0x21e1cde6; 0xc33707d6; 0xf4d50d87; 0x455a14ed;
    0xa9e3e905; 0xfcefa3f8; 0x676f02d9; 0x8d2a4c8a;
    0xfffa3942; 0x8771f681; 0x6d9d6122; 0xfde5380c;
    0xa4beea44; 0x4bdecfa9; 0xf6bb4b60; 0xbebfbc70;
    0x289b7ec6; 0xeaa127fa; 0xd4ef3085; 0x04881d05;
    0xd9d4d039; 0xe6db99e5; 0x1fa27cf8; 0xc4ac5665;
    0xf4292244; 0x432aff97; 0xab9423a7; 0xfc93a039;
    0x655b59c3; 0x8f0ccc92; 0xffeff47d; 0x85845dd1;
    0x6fa87e4f; 0xfe2ce6e0; 0xa3014314; 0x4e0811a1;
    0xf7537e82; 0xbd3af235; 0x2ad7d2bb; 0xeb86d391 ].

Record state := State { sA : Z; sB : Z; sC : Z; sD : Z }.

Definition init : state :=
  State 0x67452301 0xefcdab89 0x98badcfe 0x10325476.

(** Little-endian 32-bit word of four bytes. *)
Definition word_of_bytes (bs : list Z) : Z :=
  match bs with
  | [b0; b1; b2; b3] =>
      Z.lor b0 (Z.lor (Z.shiftl b1 8) (Z.lor (Z.shiftl b2 16) (Z.shiftl b3 24)))
  | _ => 0
  end.

Fixpoint chunks (fuel n : nat) (l : list Z) : list (list Z) :=
  match fuel, l with
  | O, _ | _, [] => []
  | Datatypes.S f, _ => take n l :: chunks f n (drop n l)
  end.

Definition words_of_block (blk : list Z) : list Z :=
  map word_of_bytes (chunks 16 4 blk).

(** Little-endian bytes of the low [8 * n] bits of [x]. *)
Fixpoint le_bytes (n : nat) (x : Z) : list Z :=
  match n with
  | O => []
  | Datatypes.S k => Z.land x 0xFF :: le_bytes k (Z.shiftr x 8)
  end.

(** Message padding: a [0x80] byte, zeros up to 56 mod 64, then the bit
    length on 64 bits, little-endian. *)
Definition pad (msg : list Z) : list Z :=
  let len := Z.of_nat (length msg) in
  let zeros := Z.to_nat ((55 - len) mod 64) in
  msg ++ 0x80 :: repeat 0 zeros ++ le_bytes 8 (Z.land (8 * len) 0xFFFFFFFFFFFFFFFF).

Definition round_fg (i : Z) (b c d : Z) : Z * Z :=
  if i <? 16 then (Z.lor (Z.land b c) (Z.land (not32 b) d), i)
  else if i <? 32 then (Z.lor (Z.land d b) (Z.land (not32 d) c), (5 * i + 1) mod 16)
  else if i <? 48 then (Z.lxor b (Z.lxor c d), (3 * i + 5) mod 16)
  else (Z.lxor c (Z.lor b (not32 d)), (7 * i) mod 16).

Definition round (M : list Z) (st : state) (i : nat) : state :=
  let '(State a b c d) := st in
  let '(f, g) := round_fg (Z.of_nat i) b c d in
  let f' := add32 (add32 (add32 f a) (nth i K_table 0)) (nth (Z.to_nat g) M 0) in
  State d (add32 b (rotl32 f' (nth i S_table 0))) b c.

Definition compress (st : state) (blk : list Z) : state :=
  let M := words_of_block blk in
  let '(State a b c d) := fold_left (round M) (seq 0 64) st in
  State (add32 (sA st) a) (add32 (sB st) b) (add32 (sC st) c) (add32 (sD st) d).

Definition md5 (msg : list Z) : state :=
  let p := pad msg in
  fold_left compress (chunks (length p) 64 p) init.

(** The 16 digest bytes: the four state words, little-endian. *)
Definition digest (st : state) : list Z :=
  le_bytes 4 (sA st) ++ le_bytes 4 (sB st) ++ le_bytes 4 (sC st) ++ le_bytes 4 (sD st).

Definition hexdigit (n : Z) : ascii :=
  nth (Z.to_nat (Z.land n 0xF))
    (list_ascii_of_string "0123456789abcdef") "0"%char.

Fixpoint hex_of_bytes (bs : list Z) : string :=
  match bs with
  | [] => EmptyString
  | b :: r => String (hexdigit (Z.shiftr b 4)) (String (hexdigit b) (hex_of_bytes r))
  end.

Definition hexdigest (st : state) : string := hex_of_bytes (digest st).

End hashlib.

(** ** String helpers mirroring the Python [str] methods the module uses *)

Definition is_sep (c : ascii) : bool := Ascii.eqb c "/".

Fixpoint contains_sep (s : string) : bool :=
  match s with
  | EmptyString => false
  | String c r => is_sep c || contains_sep r
  end.

Fixpoint startswith (s pre : string) : bool :=
  match pre, s with
  | EmptyString, _ => true
  | String a p, String b r => Ascii.eqb a b && startswith r p
  | String _ _, EmptyString => false
  end.

Fixpoint endswith_sep (s : string) : bool :=
  match s with
  | EmptyString => false
  | String c EmptyString => is_sep c
  | String _ r => endswith_sep r
  end.

Fixpoint all_sep (s : string) : bool :=
  match s with
  | EmptyString => true
  | String c r => is_sep c && all_sep r
  end.

(** [s.rstrip('/')] *)
Fixpoint rstrip_sep (s : string) : string :=
  match s with
  | EmptyString => EmptyString
  | String c r =>
      match rstrip_sep r with
      | EmptyString => if is_sep c then EmptyString else String c EmptyString
      | r' => String c r'
      end
  end.

(** [s.lower()] on the ASCII letters. *)
Definition lower_ascii (c : ascii) : ascii :=
  let n := N_of_ascii c in
  if ((65 <=? n) && (n <=? 90))%N then ascii_of_N (n + 32) else c.

Fixpoint lower (s : string) : string :=
  match s with
  | EmptyString => EmptyString
  | String c r => String (lower_ascii c) (lower r)
  end.

(** [s[:-n]] for [0 < n]: the string without its last [n] characters
    (empty when it has at most [n]). *)
Definition drop_last (n : nat) (s : string) : string :=
  String.substring 0 (String.length s - n) s.

(** ** [os.path] on POSIX *)

Module os_path.

(** [posixpath.join(a, b)] *)
Definition join (a b : string) : string :=
  if startswith b "/" then b
  else if String.eqb a "" || endswith_sep a then a +:+ b
  else a +:+ "/" +:+ b.

(** [(p[:i], p[i:])] with [i = p.rfind('/') + 1] *)
Fixpoint rsplit (p : string) : string * string :=
  match p with
  | EmptyString => (EmptyString, EmptyString)
  | String c r =>
      if contains_sep r then
        let '(h, t) := rsplit r in (String c h, t)
      else if is_sep c then (String c EmptyString, r)
      else (EmptyString, String c r)
  end.

Definition basename (p : string) : string := snd (rsplit p).

Definition dirname (p : string) : string :=
  let head := fst (rsplit p) in
  if negb (String.eqb head "") && negb (all_sep head)
  then rstrip_sep head else head.

End os_path.

(** ** Module constants *)

Definition FFMPEG_BUILDS_URL : string :=
  "https://github.com/yt-dlp/FFmpeg-Builds/releases/download/latest".
Definition CACHE_DIR : string := "/tmp/video_cache".
Definition AUDIO_CACHE_DIR : string := "/tmp/audio_cache".
Definition CACHE_EXPIRY_TIME : Z := 15 * 60.

(** ** Exceptions and responses *)

(** The exceptions the module raises itself, and [ExternalError] for any
    exception raised inside requests, subprocess, json or yt_dlp. All are
    subclasses of [Exception]. *)
Inductive exn : Type :=
  | HTTPException (status_code : Z) (detail : string)
  | ValueError (msg : string)
  | FileNotFoundError (msg : string)
  | ExternalError (msg : string).

(** [str(e)]; for [HTTPException] this is Starlette's [__str__]. *)
Definition str (e : exn) : string :=
  match e with
  | HTTPException c d => pretty c +:+ ": " +:+ d
  | ValueError m | FileNotFoundError m | ExternalError m => m
  end.

Inductive result (A : Type) : Type :=
  | Ok (a : A)
  | Raise (e : exn).
Arguments Ok {A} a.
Arguments Raise {A} e.

Record FileResponse : Type := mkFileResponse {
  path : string;
  media_type : string;
  filename : string;
}.

(** Values found in the downloader's option dictionary. *)
#[warnings="-register-all"]
Inductive pyval : Type :=
  | PStr (s : string)
  | PInt (n : Z)
  | PBool (b : bool)
  | PList (l : list pyval)
  | PDict (d : list (string * pyval)).

(** ** Process state and the outside world *)

(** The three module globals and the set of paths for which
    [os.path.exists] holds. Clock readings are seconds on [Z]. *)
Record World : Type := mkWorld {
  cached_video_path : option string;
  cached_audio_path : option string;
  last_access_time : Z;
  fs : gset string;
}.

(** What the environment answers during one call: the process environment
    and platform, the clock reading of the call's [time.time()], and the
    outcome of each external tool. *)
Record Env : Type := mkEnv {
  environ_CONFIG : option string;
  platform_system : string;
  platform_machine : string;
  time_time : Z;
  tempfile_mkdtemp : string;
  requests_get : string → result (list Z);
  (* [tar -xf archive -C temp_dir] followed by [os.walk(temp_dir)]:
     the pairs (root below temp_dir, files), or CalledProcessError *)
  tar_xf : list Z → result (list (string * list string));
  (* [json.load] of a configuration file that already existed *)
  json_load : string → result (gmap string pyval);
  (* [YoutubeDL(opts).download([url])] acting on the file system *)
  ydl_download : gmap string pyval → string → gset string → result () * gset string;
}.

Definition CONFIG_DIR (e : Env) : string := default "/config" (environ_CONFIG e).

Definition with_video (w : World) (p : option string) : World :=
  mkWorld p (cached_audio_path w) (last_access_time w) (fs w).
Definition with_audio (w : World) (p : option string) : World :=
  mkWorld (cached_video_path w) p (last_access_time w) (fs w).
Definition with_time (w : World) (t : Z) : World :=
  mkWorld (cached_video_path w) (cached_audio_path w) t (fs w).
Definition with_fs (w : World) (s : gset string) : World :=
  mkWorld (cached_video_path w) (cached_audio_path w) (last_access_time w) s.

(** ** State and exception monad: effects persist when an exception is raised

    The handlers are coroutines without an [await], and each sweeper
    iteration runs from its sleep to the next without one: on the event
    loop each runs to its end before another starts, so a request or a
    sweeper iteration is one function from world to world. *)

Definition M (A : Type) : Type := World → result A * World.

Definition ret {A} (a : A) : M A := λ w, (Ok a, w).
Definition bind {A B} (m : M A) (k : A → M B) : M B :=
  λ w, match m w with
       | (Ok a, w') => k a w'
       | (Raise e, w') => (Raise e, w')
       end.
Definition raise {A} (e : exn) : M A := λ w, (Raise e, w).
Definition lift {A} (r : result A) : M A := λ w, (r, w).

(** [try: m  except Exception as e: h e] *)
Definition try_except {A} (m : M A) (h : exn → M A) : M A :=
  λ w, match m w with
       | (Ok a, w') => (Ok a, w')
       | (Raise e, w') => h e w'
       end.

Notation "x <- m ;; k" := (bind m (λ x, k))
  (at level 100, m at next level, right associativity, only parsing).
Notation "m ;;; k" := (bind m (λ _, k))
  (at level 100, right associativity, only parsing).

Definition get : M World := λ w, (Ok w, w).
Definition modify (f : World → World) : M () := λ w, (Ok (), f w).
Definition when (b : bool) (m : M ()) : M () := if b then m else ret ().

Definition exists_ (p : string) : M bool :=
  λ w, (Ok (bool_decide (p ∈ fs w)), w).

(** [os.remove]: raises when the file is absent. *)
Definition remove (p : string) : M () :=
  λ w, if bool_decide (p ∈ fs w)
       then (Ok (), with_fs w (fs w ∖ {[p]}))
       else (Raise (FileNotFoundError p), w).

(** A file or directory comes into existence at [p]: [open(p, "w")]
    followed by a write, or the directory made by [tempfile.mkdtemp]. *)
Definition create (p : string) : M () :=
  modify (λ w, with_fs w ({[p]} ∪ fs w)).

(** [p] is [d] or lies below it. *)
Definition below (d p : string) : bool :=
  String.eqb p d || startswith p (d +:+ "/").

(** [shutil.rmtree(d)] *)
Definition rmtree (d : string) : M () :=
  modify (λ w, with_fs w (filter (λ p, below d p = false) (fs w))).

(** [shutil.move(src, dst)] onto a destination that does not exist. *)
Definition move (src dst : string) : M () :=
  modify (λ w, with_fs w ({[dst]} ∪ fs w ∖ {[src]})).

(** The idiom [if os.path.exists(p): os.remove(p)]. *)
Definition remove_existing (p : string) : M () :=
  present <- exists_ p ;; when present (remove p).

(** ** The program *)

Definition get_ffmpeg_url (e : Env) : result string :=
  let system := lower (platform_system e) in
  let machine := lower (platform_machine e) in
  if String.eqb system "linux" then
    if String.eqb machine "x86_64" then
      Ok (FFMPEG_BUILDS_URL +:+ "/ffmpeg-master-latest-linux64-gpl.tar.xz")
    else if String.eqb machine "aarch64" || String.eqb machine "arm64" then
      Ok (FFMPEG_BUILDS_URL +:+ "/ffmpeg-master-latest-linuxarm64-gpl.tar.xz")
    else Raise (ValueError ("Unsupported Linux architecture: " +:+ machine))
  else Raise (ValueError ("Unsupported system: " +:+ system)).

(** The files an extraction leaves below [temp_dir], as paths. *)
Definition extracted (temp_dir : string) (listing : list (string * list string))
  : gset string :=
  list_to_set
    (concat (map (λ rf, map (os_path.join (temp_dir +:+ rf.1)) rf.2) listing)).

(** The first directory of the walk whose files contain ["ffmpeg"]. *)
Definition walk_find (temp_dir : string) (listing : list (string * list string))
  : option string :=
  match List.find (λ rf, bool_decide ("ffmpeg" ∈ rf.2)) listing with
  | Some rf => Some (temp_dir +:+ rf.1)
  | None => None
  end.

Definition download_and_extract_ffmpeg (e : Env) : M string :=
  let ffmpeg_path := os_path.join (CONFIG_DIR e) "ffmpeg" in
  present <- exists_ ffmpeg_path ;;
  if present then ret ffmpeg_path else
  ffmpeg_url <- lift (get_ffmpeg_url e) ;;
  let temp_dir := tempfile_mkdtemp e in
  create temp_dir ;;;
  (* Download FFmpeg *)
  content <- lift (requests_get e ffmpeg_url) ;;
  let archive_path := os_path.join temp_dir "ffmpeg.archive" in
  create archive_path ;;;
  (* Extract FFmpeg *)
  listing <- lift (tar_xf e content) ;;
  modify (λ w, with_fs w (extracted temp_dir listing ∪ fs w)) ;;;
  (* Find and move the ffmpeg binary *)
  match walk_find temp_dir listing with
  | Some root => move (os_path.join root "ffmpeg") ffmpeg_path
  | None => ret ()
  end ;;;
  (* Clean up *)
  rmtree temp_dir ;;;
  present <- exists_ ffmpeg_path ;;
  if negb present
  then raise (FileNotFoundError "FFmpeg binary not found in the extracted files")
  else ret ffmpeg_path.

Definition get_cache_filename (url : string) : string :=
  hashlib.hexdigest (hashlib.md5 (encode url)) +:+ ".mp4".

Definition get_audio_cache_filename (url : string) : string :=
  hashlib.hexdigest (hashlib.md5 (encode url)) +:+ ".mp3".

(** One iteration of the loop of [clean_cache], after its sleep. *)
Definition clean_cache (e : Env) : M () :=
  w <- get ;;
  if truthy (cached_video_path w)
     && (time_time e - last_access_time w >? CACHE_EXPIRY_TIME)
  then
    match cached_video_path w with
    | Some p => remove_existing p
    | None => ret ()
    end ;;;
    modify (λ w, with_video w None) ;;;
    modify (λ w, with_time w 0)
  else ret ().

(** One iteration of the loop of [clean_audio_cache], after its sleep. *)
Definition clean_audio_cache (e : Env) : M () :=
  w <- get ;;
  if truthy (cached_audio_path w)
     && (time_time e - last_access_time w >? CACHE_EXPIRY_TIME)
  then
    match cached_audio_path w with
    | Some p => remove_existing p
    | None => ret ()
    end ;;;
    modify (λ w, with_audio w None) ;;;
    modify (λ w, with_time w 0)
  else ret ().

Definition default_config : gmap string pyval :=
  <["format" := PStr "bestvideo[ext=mp4]+bestaudio[ext=m4a]/mp4"]>
    (<["outtmpl" := PStr "%(title)s-%(id)s.%(ext)s"]> ∅).

(** The configuration file is created with the defaults when absent and
    then loaded; loading the file just written gives the defaults back. *)
Definition get_ytdlp_config (e : Env) : M (gmap string pyval) :=
  let config_path := os_path.join (CONFIG_DIR e) "yt-dlp.json" in
  present <- exists_ config_path ;;
  if negb present
  then create config_path ;;; ret default_config
  else lift (json_load e config_path).

(** [with yt_dlp.YoutubeDL(ydl_opts) as ydl: ydl.download([url])] *)
Definition YoutubeDL_download (e : Env) (ydl_opts : gmap string pyval)
    (url : string) : M () :=
  λ w, let '(r, s) := ydl_download e ydl_opts url (fs w) in (r, with_fs w s).

(** The cache test of both handlers:
    [cached and os.path.basename(cached) == cache_filename]. *)
Definition lookup (cached : option string) (cache_filename : string)
  : option string :=
  match cached with
  | Some p =>
      if truthy (Some p) && String.eqb (os_path.basename p) cache_filename
      then Some p else None
  | None => None
  end.

(** [if cached and os.path.exists(cached): os.remove(cached)] *)
Definition remove_old (cached : option string) : M () :=
  match cached with
  | Some old => if truthy (Some old) then remove_existing old else ret ()
  | None => ret ()
  end.

(** [download_video], lines 146-155: install ffmpeg, read the options,
    run the downloader. *)
Definition video_acquire (e : Env) (url new_cache_filepath : string) : M () :=
  ffmpeg_path <- download_and_extract_ffmpeg e ;;
  ydl_opts <- get_ytdlp_config e ;;
  let ydl_opts :=
    <["ffmpeg_location" := PStr (os_path.dirname ffmpeg_path)]>
      (<["outtmpl" := PStr new_cache_filepath]> ydl_opts) in
  YoutubeDL_download e ydl_opts url.

(** [download_video], the body of the [try]. *)
Definition video_try (e : Env) (url cache_filename new_cache_filepath : string)
  : M FileResponse :=
  w <- get ;;
  (* Check if the requested video is the one in cache *)
  match lookup (cached_video_path w) cache_filename with
  | Some p =>
      modify (λ w, with_time w (time_time e)) ;;;
      ret (mkFileResponse p "video/mp4" cache_filename)
  | None =>
      (* If not, download the new video *)
      video_acquire e url new_cache_filepath ;;;
      (* Check if the file exists *)
      present <- exists_ new_cache_filepath ;;
      if negb present
      then raise (HTTPException 404 "Video download failed")
      else
        (* Remove the old cached video if it exists *)
        w <- get ;;
        remove_old (cached_video_path w) ;;;
        (* Update cache information *)
        modify (λ w, with_video w (Some new_cache_filepath)) ;;;
        modify (λ w, with_time w (time_time e)) ;;;
        ret (mkFileResponse new_cache_filepath "video/mp4" cache_filename)
  end.

(** [except Exception as e:] of both handlers. *)
Definition on_exception (new_cache_filepath : string) (ex : exn)
  : M FileResponse :=
  remove_existing new_cache_filepath ;;;
  raise (HTTPException 500 (str ex)).

Definition download_video (e : Env) (url : string) : M FileResponse :=
  let cache_filename := get_cache_filename url in
  let new_cache_filepath := os_path.join CACHE_DIR cache_filename in
  try_except (video_try e url cache_filename new_cache_filepath)
             (on_exception new_cache_filepath).

(** [download_audio], lines 192-206. *)
Definition audio_acquire (e : Env) (url new_cache_filepath : string) : M () :=
  ffmpeg_path <- download_and_extract_ffmpeg e ;;
  let ydl_opts : gmap string pyval :=
    <["format" := PStr "bestaudio/best"]>
    (<["postprocessors" :=
        PList [PDict [("key", PStr "FFmpegExtractAudio");
                      ("preferredcodec", PStr "mp3");
                      ("preferredquality", PStr "128")]]]>
    (<["outtmpl" := PStr (drop_last 4 new_cache_filepath)]>
    (<["ffmpeg_location" := PStr (os_path.dirname ffmpeg_path)]> ∅))) in
  YoutubeDL_download e ydl_opts url.

(** [download_audio], the body of the [try]. *)
Definition audio_try (e : Env) (url cache_filename new_cache_filepath : string)
  : M FileResponse :=
  w <- get ;;
  match lookup (cached_audio_path w) cache_filename with
  | Some p =>
      modify (λ w, with_time w (time_time e)) ;;;
      ret (mkFileResponse p "audio/mpeg" cache_filename)
  | None =>
      audio_acquire e url new_cache_filepath ;;;
      present <- exists_ new_cache_filepath ;;
      if negb present
      then raise (HTTPException 404 "Audio download failed")
      else
        w <- get ;;
        remove_old (cached_audio_path w) ;;;
        modify (λ w, with_audio w (Some new_cache_filepath)) ;;;
        modify (λ w, with_time w (time_time e)) ;;;
        ret (mkFileResponse new_cache_filepath "audio/mpeg" cache_filename)
  end.

Definition download_audio (e : Env) (url : string) : M FileResponse :=
  let cache_filename := get_audio_cache_filename url in
  let new_cache_filepath := os_path.join AUDIO_CACHE_DIR cache_filename in
  try_except (audio_try e url cache_filename new_cache_filepath)
             (on_exception new_cache_filepath).

(** The state of the module after import: empty slots, the three
    directories made. *)
Definition startup (e : Env) : World :=
  mkWorld None None 0 {[CONFIG_DIR e; CACHE_DIR; AUDIO_CACHE_DIR]}.

(** ** Vocabulary of the properties *)

Inductive MediaKind : Type := Video | Audio.

#[global] Instance MediaKind_eq_dec : EqDecision MediaKind.
Proof. solve_decision. Defined.

Definition other (k : MediaKind) : MediaKind :=
  match k with Video => Audio | Audio => Video end.

Definition cache_dir (k : MediaKind) : string :=
  match k with Video => CACHE_DIR | Audio => AUDIO_CACHE_DIR end.

Definition cache_filename (k : MediaKind) (url : string) : string :=
  match k with
  | Video => get_cache_filename url
  | Audio => get_audio_cache_filename url
  end.

(** The [new_cache_filepath] of a request. *)
Definition cache_filepath (k : MediaKind) (url : string) : string :=
  os_path.join (cache_dir k) (cache_filename k url).

Definition cached_path (k : MediaKind) (w : World) : option string :=
  match k with Video => cached_video_path w | Audio => cached_audio_path w end.

Definition handler (k : MediaKind) : Env → string → M FileResponse :=
  match k with Video => download_video | Audio => download_audio end.

Definition try_body (k : MediaKind) (e : Env) (url : string) : M FileResponse :=
  match k with
  | Video => video_try e url (cache_filename Video url) (cache_filepath Video url)
  | Audio => audio_try e url (cache_filename Audio url) (cache_filepath Audio url)
  end.

Definition acquire (k : MediaKind) (e : Env) (url : string) : M () :=
  match k with
  | Video => video_acquire e url (cache_filepath Video url)
  | Audio => audio_acquire e url (cache_filepath Audio url)
  end.

Definition sweeper (k : MediaKind) : Env → M () :=
  match k with Video => clean_cache | Audio => clean_audio_cache end.

Definition content_type (k : MediaKind) : string :=
  match k with Video => "video/mp4" | Audio => "audio/mpeg" end.

Definition not_found_detail (k : MediaKind) : string :=
  match k with
  | Video => "Video download failed"
  | Audio => "Audio download failed"
  end.

Definition with_cached (k : MediaKind) : World → option string → World :=
  match k with Video => with_video | Audio => with_audio end.

(** What a slot of the specification reads off the globals: the resident
    path (its basename is the resident fingerprint) and the last access. *)
Definition slot_state (k : MediaKind) (w : World) : option string * Z :=
  (cached_path k w, last_access_time w).

(** The two computations agree on the three globals. *)
Definition same_globals (w w' : World) : Prop :=
  cached_video_path w' = cached_video_path w
  ∧ cached_audio_path w' = cached_audio_path w
  ∧ last_access_time w' = last_access_time w.

(** A computation that touches the file system only. *)
Definition fs_only {A} (m : M A) : Prop := ∀ w, same_globals w (m w).2.

Definition status_of {A} (r : result A) : option Z :=
  match r with
  | Raise (HTTPException c _) => Some c
  | _ => None
  end.

Definition is_hex_lower (c : ascii) : bool :=
  existsb (Ascii.eqb c) (list_ascii_of_string "0123456789abcdef").

Fixpoint all_hex_lower (s : string) : bool :=
  match s with
  | EmptyString => true
  | String c r => is_hex_lower c && all_hex_lower r
  end.

(** ** Runs of the service *)

(** What happens to the world after start-up: requests of either kind and
    sweeper iterations of either kind, in any order. *)
Inductive op : Type :=
  | Request (k : MediaKind) (e : Env) (url : string)
  | Sweep (k : MediaKind) (e : Env).

Definition step (w : World) (o : op) : World :=
  match o with
  | Request k e url => (handler k e url w).2
  | Sweep k e => (sweeper k e w).2
  end.

Definition run (ops : list op) (w : World) : World := fold_left step ops w.

(** Every resident path is the destination path of some URL of its kind. *)
Definition residents_named (w : World) : Prop :=
  ∀ k p, cached_path k w = Some p → ∃ url, p = cache_filepath k url.

(** ** Scenarios the properties are exercised on *)

(** A downloader that writes its output where the options say: at
    [outtmpl], with [.mp3] appended when an audio post-processor runs. *)
Definition ydl_writes (opts : gmap string pyval) (url : string)
    (s : gset string) : result () * gset string :=
  match opts !! "outtmpl", opts !! "postprocessors" with
  | Some (PStr p), None => (Ok (), {[p]} ∪ s)
  | Some (PStr p), Some _ => (Ok (), {[p +:+ ".mp3"]} ∪ s)
  | _, _ => (Ok (), s)
  end.

(** A downloader that fails after writing part of its output. *)
Definition ydl_fails (opts : gmap string pyval) (url : string)
    (s : gset string) : result () * gset string :=
  (Raise (ExternalError "ERROR: Unsupported URL"), (ydl_writes opts url s).2).

(** A downloader that returns normally and writes nothing. *)
Definition ydl_silent (opts : gmap string pyval) (url : string)
    (s : gset string) : result () * gset string :=
  (Ok (), s).

Definition scenario_env (now : Z)
    (ydl : gmap string pyval → string → gset string → result () * gset string)
  : Env :=
  mkEnv None "Linux" "x86_64" now "/tmp/tmpq1w2e3"
    (λ _, Ok [])
    (λ _, Ok [("", ["ffmpeg.archive"]);
              ("/ffmpeg-master-latest-linux64-gpl/bin", ["ffmpeg"; "ffprobe"])])
    (λ _, Ok default_config)
    ydl.

(** The world after a first video request for ["https://x/1"] at time 100
    and a first audio request for it at time 200. *)
Definition scenario_world : World :=
  (download_audio (scenario_env 200 ydl_writes) "https://x/1"
     (download_video (scenario_env 100 ydl_writes) "https://x/1"
        (startup (scenario_env 0 ydl_writes))).2).2.

(** ** Shutdown, and further vocabulary *)

(** [shutdown_event]: both cache directories are removed with what is
    below them, errors ignored. *)
Definition shutdown_event : M () :=
  rmtree CACHE_DIR ;;; rmtree AUDIO_CACHE_DIR.

(** Every resident path names a file that exists. *)
Definition residents_exist (w : World) : Prop :=
  ∀ k p, cached_path k w = Some p → p ∈ fs w.

(** The acquisition a request runs from [w] (none on a hit) leaves the
    resident files of [w] in place. *)
Definition acquisition_keeps_residents (k : MediaKind) (e : Env)
    (url : string) (w : World) : bool :=
  match lookup (cached_path k w) (cache_filename k url) with
  | Some _ => true
  | None =>
      forallb
        (λ k', match cached_path k' w with
               | Some p => bool_decide (p ∈ fs (acquire k e url w).2)
               | None => true
               end)
        [Video; Audio]
  end.

(** Along a run, no acquisition deletes a resident file. *)
Fixpoint residents_kept (ops : list op) (w : World) : bool :=
  match ops with
  | [] => true
  | o :: rest =>
      match o with
      | Request k e url => acquisition_keeps_residents k e url w
      | Sweep _ _ => true
      end
      && residents_kept rest (step w o)
  end.

(** The downloader of [e] does what its options say, as [ydl_writes]. *)
Definition obedient (e : Env) : Prop := ydl_download e = ydl_writes.

(** An environment whose options file exists and loads as [cfg], with a
    downloader that obeys its options. *)
Definition scenario_env_config (cfg : gmap string pyval) : Env :=
  mkEnv None "Linux" "x86_64" 10 "/tmp/tmpq1w2e3" (λ _, Ok [])
    (λ _, Ok []) (λ _, Ok cfg) ydl_writes.

(** The platforms for which [get_ffmpeg_url] has an archive. *)
Definition supported_platform (e : Env) : bool :=
  String.eqb (lower (platform_system e)) "linux"
  && (String.eqb (lower (platform_machine e)) "x86_64"
      || String.eqb (lower (platform_machine e)) "aarch64"
      || String.eqb (lower (platform_machine e)) "arm64").

(** * Properties *)

(** ** The digest model against the RFC 1321 test suite *)

Example md5_empty :
  hashlib.hexdigest (hashlib.md5 (encode "")) = "d41d8cd98f00b204e9800998ecf8427e".
Proof. vm_compute. reflexivity. Qed.

Example md5_a :
  hashlib.hexdigest (hashlib.md5 (encode "a")) = "0cc175b9c0f1b6a831c399e269772661".
Proof. vm_compute. reflexivity. Qed.

Example md5_abc :
  hashlib.hexdigest (hashlib.md5 (encode "abc")) = "900150983cd24fb0d6963f7d28e17f72".
Proof. vm_compute. reflexivity. Qed.

Example md5_alphabet :
  hashlib.hexdigest (hashlib.md5 (encode "abcdefghijklmnopqrstuvwxyz"))
  = "c3fcd3d76192e4007dfb496cca67e13b".
Proof. vm_compute. reflexivity. Qed.

Example md5_message_digest :
  hashlib.hexdigest (hashlib.md5 (encode "message digest"))
  = "f96b697d7cb7938d525a2f31aaf161d0".
Proof. vm_compute. reflexivity. Qed.

Example md5_alphanumeric :
  hashlib.hexdigest (hashlib.md5 (encode
    "ABCDEFGHIJKLMNOPQRSTUVWXYZabcdefghijklmnopqrstuvwxyz0123456789"))
  = "d174ab98d277d9f5a5611c2c9f419d9f".
Proof. vm_compute. reflexivity. Qed.

Example md5_digits :
  hashlib.hexdigest (hashlib.md5 (encode
    "12345678901234567890123456789012345678901234567890123456789012345678901234567890"))
  = "57edf4a22be3c955ac49da2e2107b67a".
Proof. vm_compute. reflexivity. Qed.

(** ** Strings and paths *)

Lemma append_length (a b : string) :
  String.length (a +:+ b) = (String.length a + String.length b)%nat.
Proof. induction a as [|c a IH]; simpl; [reflexivity | now rewrite IH]. Qed.

Lemma append_inv_length (a b x y : string) :
  String.length a = String.length b → a +:+ x = b +:+ y → a = b ∧ x = y.
Proof.
  revert b. induction a as [|c a IH]; intros [|d b] Hlen Heq;
    simpl in *; try discriminate.
  - now split.
  - injection Heq as -> Heq. injection Hlen as Hlen.
    destruct (IH b Hlen Heq) as [-> ->]. now split.
Qed.

Lemma contains_sep_append (a b : string) :
  contains_sep (a +:+ b) = contains_sep a || contains_sep b.
Proof.
  induction a as [|c a IH]; simpl; [reflexivity|].
  now rewrite IH, orb_assoc.
Qed.

Lemma startswith_sep_contains (s : string) :
  contains_sep s = false → startswith s "/" = false.
Proof.
  destruct s as [|c s]; cbn [contains_sep startswith]; [reflexivity|].
  intros [Hc _]%orb_false_elim. unfold is_sep in Hc.
  rewrite Ascii.eqb_sym, Hc. reflexivity.
Qed.

Lemma rsplit_append (d f : string) :
  contains_sep f = false → os_path.rsplit (d +:+ "/" +:+ f) = (d +:+ "/", f).
Proof.
  intros Hf. induction d as [|c d IH].
  - change ("" +:+ "/" +:+ f) with (String "/" f). simpl. now rewrite Hf.
  - change (String c d +:+ "/" +:+ f) with (String c (d +:+ "/" +:+ f)).
    cbn [os_path.rsplit]. rewrite IH, contains_sep_append.
    change (contains_sep ("/" +:+ f)) with true. now rewrite orb_true_r.
Qed.

Lemma basename_append (d f : string) :
  contains_sep f = false → os_path.basename (d +:+ "/" +:+ f) = f.
Proof. intros Hf. unfold os_path.basename. now rewrite rsplit_append. Qed.

Lemma all_hex_no_sep (s : string) : all_hex_lower s = true → contains_sep s = false.
Proof.
  induction s as [|c s IH]; simpl; [reflexivity|].
  intros [Hc Hs]%andb_prop. rewrite (IH Hs), orb_false_r.
  unfold is_sep. destruct (Ascii.eqb_spec c "/") as [->|]; [discriminate | reflexivity].
Qed.

(** ** Shape of the digest *)

Lemma le_bytes_length (n : nat) (x : Z) : length (hashlib.le_bytes n x) = n.
Proof. revert x. induction n as [|n IH]; intros x; simpl; [reflexivity | now rewrite IH]. Qed.

Lemma digest_length (st : hashlib.state) : length (hashlib.digest st) = 16%nat.
Proof. unfold hashlib.digest. now rewrite !length_app, !le_bytes_length. Qed.

Lemma hex_of_bytes_length (bs : list Z) :
  String.length (hashlib.hex_of_bytes bs) = (2 * length bs)%nat.
Proof. induction bs as [|b bs IH]; simpl; [reflexivity | rewrite IH; lia]. Qed.

Lemma hexdigest_length (st : hashlib.state) :
  String.length (hashlib.hexdigest st) = 32%nat.
Proof. unfold hashlib.hexdigest. now rewrite hex_of_bytes_length, digest_length. Qed.

Lemma hexdigit_is_hex (n : Z) : is_hex_lower (hashlib.hexdigit n) = true.
Proof.
  unfold hashlib.hexdigit.
  assert (H : (Z.to_nat (Z.land n 15) < 16)%nat).
  { change 15 with (Z.ones 4). rewrite Z.land_ones by lia.
    pose proof (Z.mod_pos_bound n (2 ^ 4) eq_refl). lia. }
  revert H. generalize (Z.to_nat (Z.land n 15)). intros k Hk.
  do 16 (destruct k as [|k]; [reflexivity|]). lia.
Qed.

Lemma hex_of_bytes_all_hex (bs : list Z) :
  all_hex_lower (hashlib.hex_of_bytes bs) = true.
Proof.
  induction bs as [|b bs IH]; simpl; [reflexivity|].
  now rewrite !hexdigit_is_hex, IH.
Qed.

Lemma hexdigest_all_hex (st : hashlib.state) :
  all_hex_lower (hashlib.hexdigest st) = true.
Proof. apply hex_of_bytes_all_hex. Qed.

Lemma cache_filename_no_sep (k : MediaKind) (url : string) :
  contains_sep (cache_filename k url) = false.
Proof.
  destruct k; unfold cache_filename, get_cache_filename, get_audio_cache_filename;
    rewrite contains_sep_append, (all_hex_no_sep _ (hexdigest_all_hex _));
    reflexivity.
Qed.

Lemma join_cache_dir (k : MediaKind) (f : string) :
  contains_sep f = false → os_path.join (cache_dir k) f = cache_dir k +:+ "/" +:+ f.
Proof.
  intros Hf. unfold os_path.join. rewrite (startswith_sep_contains _ Hf).
  destruct k; reflexivity.
Qed.

Lemma cache_filepath_eq (k : MediaKind) (url : string) :
  cache_filepath k url = cache_dir k +:+ "/" +:+ cache_filename k url.
Proof. apply join_cache_dir, cache_filename_no_sep. Qed.

Lemma cache_filepath_basename (k : MediaKind) (url : string) :
  os_path.basename (cache_filepath k url) = cache_filename k url.
Proof. rewrite cache_filepath_eq. apply basename_append, cache_filename_no_sep. Qed.

Lemma cache_filepath_dirname (k : MediaKind) (url : string) :
  os_path.dirname (cache_filepath k url) = cache_dir k.
Proof.
  rewrite cache_filepath_eq. unfold os_path.dirname.
  rewrite rsplit_append by apply cache_filename_no_sep.
  destruct k; reflexivity.
Qed.

Lemma cache_filepath_nonempty (k : MediaKind) (url : string) :
  truthy (Some (cache_filepath k url)) = true.
Proof. rewrite cache_filepath_eq. destruct k; reflexivity. Qed.

(** ** Cache names *)

(** C10. For every URL, whatever characters it contains, the cache file
    name is the 32 lowercase hexadecimal characters of the MD5 digest of
    the URL followed by [.mp4] (video) or [.mp3] (audio); it holds no path
    separator, and the destination path is that name directly below the
    cache directory of its kind. *)
Theorem C10_cache_path_shape (url : string) :
  let d := hashlib.hexdigest (hashlib.md5 (encode url)) in
  String.length d = 32%nat
  ∧ all_hex_lower d = true
  ∧ get_cache_filename url = d +:+ ".mp4"
  ∧ get_audio_cache_filename url = d +:+ ".mp3"
  ∧ os_path.join CACHE_DIR (get_cache_filename url)
    = "/tmp/video_cache/" +:+ d +:+ ".mp4"
  ∧ os_path.join AUDIO_CACHE_DIR (get_audio_cache_filename url)
    = "/tmp/audio_cache/" +:+ d +:+ ".mp3"
  ∧ (∀ k, contains_sep (cache_filename k url) = false
          ∧ os_path.dirname (cache_filepath k url) = cache_dir k
          ∧ os_path.basename (cache_filepath k url) = cache_filename k url).
Proof.
  intros d. split; [apply hexdigest_length|].
  split; [apply hexdigest_all_hex|].
  split; [reflexivity|]. split; [reflexivity|].
  split; [exact (cache_filepath_eq Video url)|].
  split; [exact (cache_filepath_eq Audio url)|].
  intros k. split; [apply cache_filename_no_sep|].
  split; [apply cache_filepath_dirname | apply cache_filepath_basename].
Qed.

(** C1, as the code has it. The cache key is the MD5 hexadecimal digest of
    the URL alone, followed by the extension of the kind. A video key
    never equals an audio key, for any two URLs; two keys of one kind are
    equal exactly when the MD5 digests of their URLs are. *)
Theorem C1_keys_differ_by_kind (u1 u2 : string) :
  get_cache_filename u1 ≠ get_audio_cache_filename u2
  ∧ (get_cache_filename u1 = get_cache_filename u2
     ↔ hashlib.hexdigest (hashlib.md5 (encode u1))
       = hashlib.hexdigest (hashlib.md5 (encode u2)))
  ∧ (get_audio_cache_filename u1 = get_audio_cache_filename u2
     ↔ hashlib.hexdigest (hashlib.md5 (encode u1))
       = hashlib.hexdigest (hashlib.md5 (encode u2))).
Proof.
  unfold get_cache_filename, get_audio_cache_filename.
  assert (Hlen : String.length (hashlib.hexdigest (hashlib.md5 (encode u1)))
                 = String.length (hashlib.hexdigest (hashlib.md5 (encode u2))))
    by now rewrite !hexdigest_length.
  split; [|split].
  - intros H. apply append_inv_length in H as [_ H]; [discriminate | exact Hlen].
  - split; [intros H | now intros ->].
    now apply append_inv_length in H as [H _].
  - split; [intros H | now intros ->].
    now apply append_inv_length in H as [H _].
Qed.

(** C1 fails as stated: two distinct URLs with one MD5 digest get the same
    video key and the same audio key, and a request for the second is
    answered from the cached file of the first. *)
Lemma C1_distinct_urls_one_key :
  "TEXTCOLLBYfGiJUETHQ4hAcKSMd5zYpgqf1YRDhkmxHkhPWptrkoyz28wnI9V0aHeAuaKnak"
  ≠ "TEXTCOLLBYfGiJUETHQ4hEcKSMd5zYpgqf1YRDhkmxHkhPWptrkoyz28wnI9V0aHeAuaKnak"
  ∧ get_cache_filename
      "TEXTCOLLBYfGiJUETHQ4hAcKSMd5zYpgqf1YRDhkmxHkhPWptrkoyz28wnI9V0aHeAuaKnak"
    = get_cache_filename
      "TEXTCOLLBYfGiJUETHQ4hEcKSMd5zYpgqf1YRDhkmxHkhPWptrkoyz28wnI9V0aHeAuaKnak"
  ∧ get_audio_cache_filename
      "TEXTCOLLBYfGiJUETHQ4hAcKSMd5zYpgqf1YRDhkmxHkhPWptrkoyz28wnI9V0aHeAuaKnak"
    = get_audio_cache_filename
      "TEXTCOLLBYfGiJUETHQ4hEcKSMd5zYpgqf1YRDhkmxHkhPWptrkoyz28wnI9V0aHeAuaKnak"
  ∧ lookup
      (Some (cache_filepath Video
        "TEXTCOLLBYfGiJUETHQ4hAcKSMd5zYpgqf1YRDhkmxHkhPWptrkoyz28wnI9V0aHeAuaKnak"))
      (get_cache_filename
        "TEXTCOLLBYfGiJUETHQ4hEcKSMd5zYpgqf1YRDhkmxHkhPWptrkoyz28wnI9V0aHeAuaKnak")
    = Some "/tmp/video_cache/faad49866e9498fc1719f5289e7a0269.mp4".
Proof.
  split; [discriminate|].
  split; [vm_compute; reflexivity|].
  split; vm_compute; reflexivity.
Qed.

(** ** Computations that leave the globals alone *)

Arguments get_cache_filename : simpl never.
Arguments get_audio_cache_filename : simpl never.
Arguments cache_filepath : simpl never.
Arguments os_path.join : simpl never.

Lemma same_globals_refl (w : World) : same_globals w w.
Proof. now unfold same_globals. Qed.

Lemma same_globals_trans (w1 w2 w3 : World) :
  same_globals w1 w2 → same_globals w2 w3 → same_globals w1 w3.
Proof. unfold same_globals. intros (?&?&?) (?&?&?). repeat split; congruence. Qed.

Lemma same_globals_with_fs (w : World) (s : gset string) :
  same_globals w (with_fs w s).
Proof. now unfold same_globals. Qed.

Create HintDb fs_only.

Lemma fs_only_ret {A} (a : A) : fs_only (ret a).
Proof. intros w. apply same_globals_refl. Qed.

Lemma fs_only_raise {A} (x : exn) : fs_only (@raise A x).
Proof. intros w. apply same_globals_refl. Qed.

Lemma fs_only_lift {A} (r : result A) : fs_only (lift r).
Proof. intros w. apply same_globals_refl. Qed.

Lemma fs_only_bind {A B} (m : M A) (k : A → M B) :
  fs_only m → (∀ a, fs_only (k a)) → fs_only (bind m k).
Proof.
  intros Hm Hk w. unfold bind. specialize (Hm w).
  destruct (m w) as [[a|x] w1]; simpl in *; [|exact Hm].
  eapply same_globals_trans; [exact Hm | apply Hk].
Qed.

Lemma fs_only_exists (p : string) : fs_only (exists_ p).
Proof. intros w. apply same_globals_refl. Qed.

Lemma fs_only_modify_fs (g : World → gset string) :
  fs_only (modify (λ w, with_fs w (g w))).
Proof. intros w. apply same_globals_with_fs. Qed.

Lemma fs_only_remove (p : string) : fs_only (remove p).
Proof.
  intros w. unfold remove. destruct (bool_decide (p ∈ fs w)); simpl;
    [apply same_globals_with_fs | apply same_globals_refl].
Qed.

Lemma fs_only_create (p : string) : fs_only (create p).
Proof. apply fs_only_modify_fs. Qed.

Lemma fs_only_rmtree (d : string) : fs_only (rmtree d).
Proof. apply fs_only_modify_fs. Qed.

Lemma fs_only_move (a b : string) : fs_only (move a b).
Proof. apply fs_only_modify_fs. Qed.

Lemma fs_only_when (b : bool) (m : M ()) : fs_only m → fs_only (when b m).
Proof. destruct b; [trivial | intros _; apply fs_only_ret]. Qed.

#[local] Hint Resolve fs_only_ret fs_only_raise fs_only_lift fs_only_exists
  fs_only_modify_fs fs_only_remove fs_only_create fs_only_rmtree
  fs_only_move fs_only_when : fs_only.

Ltac fs_only_step :=
  first
    [ apply fs_only_bind; [|intros ?]
    | progress auto with fs_only
    | match goal with
      | |- fs_only (if ?b then _ else _) => destruct b
      | |- fs_only (match ?o with Some _ => _ | None => _ end) => destruct o
      end ].

Lemma fs_only_remove_existing (p : string) : fs_only (remove_existing p).
Proof. unfold remove_existing. repeat fs_only_step. Qed.

Lemma fs_only_remove_old (c : option string) : fs_only (remove_old c).
Proof.
  destruct c as [p|]; unfold remove_old; [|apply fs_only_ret].
  destruct (truthy (Some p)); [apply fs_only_remove_existing | apply fs_only_ret].
Qed.

Lemma fs_only_ydl (e : Env) (opts : gmap string pyval) (url : string) :
  fs_only (YoutubeDL_download e opts url).
Proof.
  intros w. unfold YoutubeDL_download.
  destruct (ydl_download e opts url (fs w)). apply same_globals_with_fs.
Qed.

Lemma fs_only_ffmpeg (e : Env) : fs_only (download_and_extract_ffmpeg e).
Proof. unfold download_and_extract_ffmpeg. repeat fs_only_step. Qed.

Lemma fs_only_config (e : Env) : fs_only (get_ytdlp_config e).
Proof. unfold get_ytdlp_config. repeat fs_only_step. Qed.

#[local] Hint Resolve fs_only_remove_existing fs_only_remove_old fs_only_ydl
  fs_only_ffmpeg fs_only_config : fs_only.

Lemma fs_only_acquire (k : MediaKind) (e : Env) (url : string) :
  fs_only (acquire k e url).
Proof.
  destruct k; unfold acquire, video_acquire, audio_acquire; repeat fs_only_step.
Qed.

Lemma fs_only_on_exception (new : string) (x : exn) :
  fs_only (on_exception new x).
Proof. unfold on_exception. repeat fs_only_step. Qed.

(** ** Running the removal idiom *)

Lemma remove_existing_run (p : string) (w : World) :
  (remove_existing p w).1 = Ok ()
  ∧ same_globals w (remove_existing p w).2
  ∧ (p ∉ fs (remove_existing p w).2)
  ∧ (∀ q, q ≠ p → (q ∈ fs (remove_existing p w).2 ↔ q ∈ fs w)).
Proof.
  unfold remove_existing, bind, exists_, when, remove, ret.
  destruct (bool_decide (p ∈ fs w)) eqn:Hp; simpl.
  - rewrite Hp. simpl. split; [reflexivity|].
    split; [apply same_globals_with_fs|]. split.
    + rewrite elem_of_difference, elem_of_singleton. tauto.
    + intros q Hq. rewrite elem_of_difference, elem_of_singleton. tauto.
  - apply bool_decide_eq_false in Hp. split; [reflexivity|].
    split; [apply same_globals_refl|]. split; [exact Hp | tauto].
Qed.

Lemma remove_old_run (c : option string) (w : World) :
  (remove_old c w).1 = Ok ()
  ∧ same_globals w (remove_old c w).2
  ∧ (∀ p, c = Some p → truthy (Some p) = true → p ∉ fs (remove_old c w).2)
  ∧ (∀ q, c ≠ Some q → (q ∈ fs (remove_old c w).2 ↔ q ∈ fs w)).
Proof.
  destruct c as [old|]; unfold remove_old.
  - destruct (truthy (Some old)) eqn:Ht.
    + destruct (remove_existing_run old w) as (H1 & H2 & H3 & H4).
      split; [exact H1|]. split; [exact H2|]. split.
      * now intros p [= <-] _.
      * intros q Hq. apply H4. congruence.
    + split; [reflexivity|]. split; [apply same_globals_refl|]. split.
      * intros p [= <-] Hp. congruence.
      * intros q _. reflexivity.
  - split; [reflexivity|]. split; [apply same_globals_refl|]. split.
    + intros p [=].
    + intros q _. reflexivity.
Qed.

Lemma on_exception_run (new : string) (x : exn) (w : World) :
  (on_exception new x w).1 = Raise (HTTPException 500 (str x))
  ∧ same_globals w (on_exception new x w).2
  ∧ (new ∉ fs (on_exception new x w).2)
  ∧ (∀ q, q ≠ new → (q ∈ fs (on_exception new x w).2 ↔ q ∈ fs w)).
Proof.
  destruct (remove_existing_run new w) as (H1 & H2 & H3 & H4).
  unfold on_exception, bind, raise.
  destruct (remove_existing new w) as [[[]|y] w1]; simpl in *;
    [|discriminate].
  split; [reflexivity|]. split; [exact H2|]. split; [exact H3 | exact H4].
Qed.

(** ** Running a handler *)

Lemma handler_unfold (k : MediaKind) (e : Env) (url : string) :
  handler k e url
  = try_except (try_body k e url) (on_exception (cache_filepath k url)).
Proof. destruct k; reflexivity. Qed.

Lemma try_body_hit (k : MediaKind) (e : Env) (url : string) (w : World) (p : string) :
  lookup (cached_path k w) (cache_filename k url) = Some p →
  try_body k e url w
  = (Ok (mkFileResponse p (content_type k) (cache_filename k url)),
     with_time w (time_time e)).
Proof.
  intros H. destruct k; cbn [try_body cached_path cache_filename content_type] in *;
    unfold video_try, audio_try, bind, get; rewrite H; reflexivity.
Qed.

Lemma try_body_miss (k : MediaKind) (e : Env) (url : string) (w : World) :
  lookup (cached_path k w) (cache_filename k url) = None →
  try_body k e url w
  = match acquire k e url w with
    | (Raise x, w1) => (Raise x, w1)
    | (Ok _, w1) =>
        if bool_decide (cache_filepath k url ∈ fs w1)
        then (Ok (mkFileResponse (cache_filepath k url) (content_type k)
                    (cache_filename k url)),
              with_time
                (with_cached k (remove_old (cached_path k w1) w1).2
                   (Some (cache_filepath k url)))
                (time_time e))
        else (Raise (HTTPException 404 (not_found_detail k)), w1)
    end.
Proof.
  intros H.
  destruct k;
    cbn [try_body cached_path cache_filename content_type acquire
         with_cached not_found_detail] in *;
    unfold video_try, audio_try; unfold bind at 1; unfold get;
    rewrite H; unfold bind at 1.
  - destruct (video_acquire e url (cache_filepath Video url) w) as [[[]|x] w1];
      [|reflexivity].
    unfold bind at 1, exists_.
    destruct (bool_decide (cache_filepath Video url ∈ fs w1)); [|reflexivity].
    cbn [negb]. unfold bind at 1. unfold bind at 1.
    destruct (remove_old_run (cached_video_path w1) w1) as (Hok & _).
    destruct (remove_old (cached_video_path w1) w1) as [[[]|y] w2];
      simpl in Hok; [reflexivity | discriminate].
  - destruct (audio_acquire e url (cache_filepath Audio url) w) as [[[]|x] w1];
      [|reflexivity].
    unfold bind at 1, exists_.
    destruct (bool_decide (cache_filepath Audio url ∈ fs w1)); [|reflexivity].
    cbn [negb]. unfold bind at 1. unfold bind at 1.
    destruct (remove_old_run (cached_audio_path w1) w1) as (Hok & _).
    destruct (remove_old (cached_audio_path w1) w1) as [[[]|y] w2];
      simpl in Hok; [reflexivity | discriminate].
Qed.

Lemma handler_of_try (k : MediaKind) (e : Env) (url : string) (w : World) :
  handler k e url w
  = match try_body k e url w with
    | (Ok r, w1) => (Ok r, w1)
    | (Raise x, w1) => on_exception (cache_filepath k url) x w1
    end.
Proof. rewrite handler_unfold. reflexivity. Qed.

Lemma lookup_some_iff (c : option string) (f p : string) :
  lookup c f = Some p
  ↔ c = Some p ∧ truthy (Some p) = true ∧ os_path.basename p = f.
Proof.
  unfold lookup. destruct c as [q|]; [|split; [discriminate | now intros [? _]]].
  destruct (truthy (Some q)) eqn:Ht; cbn [andb].
  - destruct (String.eqb_spec (os_path.basename q) f) as [Hb|Hb].
    + split; [intros [= <-]; auto | now intros ([= <-] & _)].
    + split; [discriminate | intros ([= <-] & _ & ?); contradiction].
  - split; [discriminate | intros ([= <-] & ? & _); congruence].
Qed.

Lemma lookup_none_iff (c : option string) (f : string) :
  lookup c f = None
  ↔ ∀ p, c = Some p → truthy (Some p) = true → os_path.basename p ≠ f.
Proof.
  split.
  - intros Hn p Hc Ht Hb.
    assert (lookup c f = Some p) by (apply lookup_some_iff; auto). congruence.
  - intros H. destruct (lookup c f) as [p|] eqn:Hl; [|reflexivity].
    apply lookup_some_iff in Hl as (Hc & Ht & Hb). now destruct (H p Hc Ht).
Qed.

Lemma lookup_cache_filepath (k : MediaKind) (url : string) :
  lookup (Some (cache_filepath k url)) (cache_filename k url)
  = Some (cache_filepath k url).
Proof.
  apply lookup_some_iff. split; [reflexivity|].
  split; [apply cache_filepath_nonempty | apply cache_filepath_basename].
Qed.

Lemma cached_path_with_cached (k : MediaKind) (w : World) (c : option string) :
  cached_path k (with_cached k w c) = c
  ∧ cached_path (other k) (with_cached k w c) = cached_path (other k) w
  ∧ last_access_time (with_cached k w c) = last_access_time w
  ∧ fs (with_cached k w c) = fs w.
Proof. destruct k; repeat split. Qed.

Lemma same_globals_cached (k : MediaKind) (w w' : World) :
  same_globals w w' → cached_path k w' = cached_path k w.
Proof. intros (Hv & Ha & _). now destruct k. Qed.

(** The four ways a request can run. *)
Lemma handler_cases (k : MediaKind) (e : Env) (url : string) (w : World) :
  (∃ p, lookup (cached_path k w) (cache_filename k url) = Some p
        ∧ handler k e url w
          = (Ok (mkFileResponse p (content_type k) (cache_filename k url)),
             with_time w (time_time e)))
  ∨ (lookup (cached_path k w) (cache_filename k url) = None
     ∧ ∃ w1, same_globals w w1
       ∧ ((∃ x, acquire k e url w = (Raise x, w1)
                ∧ handler k e url w = on_exception (cache_filepath k url) x w1)
          ∨ (acquire k e url w = (Ok (), w1)
             ∧ (cache_filepath k url ∉ fs w1)
             ∧ handler k e url w
               = on_exception (cache_filepath k url)
                   (HTTPException 404 (not_found_detail k)) w1)
          ∨ (acquire k e url w = (Ok (), w1)
             ∧ cache_filepath k url ∈ fs w1
             ∧ handler k e url w
               = (Ok (mkFileResponse (cache_filepath k url) (content_type k)
                        (cache_filename k url)),
                  with_time
                    (with_cached k (remove_old (cached_path k w1) w1).2
                       (Some (cache_filepath k url)))
                    (time_time e))))).
Proof.
  rewrite handler_of_try.
  destruct (lookup (cached_path k w) (cache_filename k url)) as [p|] eqn:Hl.
  - left. exists p. split; [reflexivity|]. now rewrite (try_body_hit _ _ _ _ _ Hl).
  - right. split; [reflexivity|]. rewrite (try_body_miss _ _ _ _ Hl).
    pose proof (fs_only_acquire k e url w) as Hg.
    destruct (acquire k e url w) as [[[]|x] w1]; cbn [snd] in Hg; exists w1;
      (split; [exact Hg|]).
    + destruct (bool_decide (cache_filepath k url ∈ fs w1)) eqn:Hb.
      * apply bool_decide_eq_true in Hb. right; right. auto.
      * apply bool_decide_eq_false in Hb. right; left. auto.
    + left. exists x. auto.
Qed.

(** A request that ends in an exception: status 500, globals as before,
    nothing left at the destination. *)
Lemma handler_raise_frame (k : MediaKind) (e : Env) (url : string) (w : World)
    (y : exn) :
  (handler k e url w).1 = Raise y →
  (∃ d, y = HTTPException 500 d)
  ∧ same_globals w (handler k e url w).2
  ∧ cache_filepath k url ∉ fs (handler k e url w).2.
Proof.
  intros Hy.
  destruct (handler_cases k e url w)
    as [(p & _ & H) | (_ & w1 & Hg & [(x & _ & H) | [(_ & _ & H) | (_ & _ & H)]])];
    rewrite H in Hy |- *; try discriminate.
  - destruct (on_exception_run (cache_filepath k url) x w1) as (H1 & H2 & H3 & _).
    rewrite H1 in Hy. injection Hy as <-. split; [eauto|].
    split; [eapply same_globals_trans; eassumption | exact H3].
  - destruct (on_exception_run (cache_filepath k url)
                (HTTPException 404 (not_found_detail k)) w1) as (H1 & H2 & H3 & _).
    rewrite H1 in Hy. injection Hy as <-. split; [eauto|].
    split; [eapply same_globals_trans; eassumption | exact H3].
Qed.

(** ** Failures *)

(** C5. When the acquisition of a request raises, the handler answers with
    an error (status 500 carrying the text of the exception), the three
    globals are as before the request (no replace happened), and no file
    is left at the destination path. *)
Theorem C5_failed_acquisition_leaves_slot (k : MediaKind) (e : Env)
    (url : string) (w : World) (x : exn) :
  lookup (cached_path k w) (cache_filename k url) = None →
  (acquire k e url w).1 = Raise x →
  (handler k e url w).1 = Raise (HTTPException 500 (str x))
  ∧ same_globals w (handler k e url w).2
  ∧ cache_filepath k url ∉ fs (handler k e url w).2.
Proof.
  intros Hl Ha.
  destruct (handler_cases k e url w)
    as [(p & Hp & _) | (_ & w1 & Hg & [(y & Hy & H) | [(Hy & _) | (Hy & _)]])];
    try congruence; try (rewrite Hy in Ha; discriminate).
  rewrite Hy in Ha. injection Ha as ->. rewrite H.
  destruct (on_exception_run (cache_filepath k url) x w1) as (H1 & H2 & H3 & _).
  split; [exact H1|].
  split; [eapply same_globals_trans; eassumption | exact H3].
Qed.

Lemma C5_failed_acquisition_witness :
  lookup (cached_path Video scenario_world) (cache_filename Video "https://x/3")
  = None
  ∧ (acquire Video (scenario_env 300 ydl_fails) "https://x/3" scenario_world).1
    = Raise (ExternalError "ERROR: Unsupported URL")
  ∧ cache_filepath Video "https://x/3"
    ∈ fs (acquire Video (scenario_env 300 ydl_fails) "https://x/3" scenario_world).2
  ∧ (handler Video (scenario_env 300 ydl_fails) "https://x/3" scenario_world).1
    = Raise (HTTPException 500 "ERROR: Unsupported URL")
  ∧ same_globals scenario_world
      (handler Video (scenario_env 300 ydl_fails) "https://x/3" scenario_world).2
  ∧ cache_filepath Video "https://x/3"
    ∉ fs (handler Video (scenario_env 300 ydl_fails) "https://x/3" scenario_world).2.
Proof.
  split; [compute_done|]. split; [compute_done|]. split; [compute_done|].
  apply (C5_failed_acquisition_leaves_slot Video (scenario_env 300 ydl_fails)
           "https://x/3" scenario_world (ExternalError "ERROR: Unsupported URL"));
    compute_done.
Defined.

(** C2, what the code does. When the acquisition returns normally and the
    expected output file is absent, the [HTTPException] with status 404
    raised inside the [try] is caught by the handler's own
    [except Exception] and the request is answered with status 500. *)
Theorem C2_missing_output_answered_500 (k : MediaKind) (e : Env)
    (url : string) (w : World) :
  lookup (cached_path k w) (cache_filename k url) = None →
  (acquire k e url w).1 = Ok () →
  cache_filepath k url ∉ fs (acquire k e url w).2 →
  (try_body k e url w).1 = Raise (HTTPException 404 (not_found_detail k))
  ∧ (handler k e url w).1
    = Raise (HTTPException 500 (str (HTTPException 404 (not_found_detail k))))
  ∧ status_of (handler k e url w).1 = Some 500.
Proof.
  intros Hl Ha Hn.
  assert (Ht : (try_body k e url w).1
               = Raise (HTTPException 404 (not_found_detail k))).
  { rewrite (try_body_miss _ _ _ _ Hl).
    destruct (acquire k e url w) as [[[]|y] w1]; cbn [fst snd] in *;
      [|discriminate].
    now rewrite (bool_decide_eq_false_2 _ Hn). }
  split; [exact Ht|].
  rewrite handler_of_try.
  destruct (try_body k e url w) as [[r|y] w1]; cbn [fst] in Ht;
    [discriminate|]. injection Ht as ->.
  destruct (on_exception_run (cache_filepath k url)
              (HTTPException 404 (not_found_detail k)) w1) as (H1 & _).
  rewrite H1. split; reflexivity.
Qed.

Lemma C2_missing_output_witness :
  (handler Video (scenario_env 300 ydl_silent) "https://x/9" scenario_world).1
  = Raise (HTTPException 500 "404: Video download failed")
  ∧ status_of
      (handler Video (scenario_env 300 ydl_silent) "https://x/9" scenario_world).1
    = Some 500
  ∧ (handler Audio (scenario_env 300 ydl_silent) "https://x/9" scenario_world).1
    = Raise (HTTPException 500 "404: Audio download failed").
Proof.
  split; [|split].
  - apply (C2_missing_output_answered_500 Video (scenario_env 300 ydl_silent)
             "https://x/9" scenario_world); compute_done.
  - apply (C2_missing_output_answered_500 Video (scenario_env 300 ydl_silent)
             "https://x/9" scenario_world); compute_done.
  - apply (C2_missing_output_answered_500 Audio (scenario_env 300 ydl_silent)
             "https://x/9" scenario_world); compute_done.
Defined.

(** ** The sweepers *)

Lemma sweeper_idle (k : MediaKind) (e : Env) (w : World) (p : string) :
  cached_path k w = Some p → truthy (Some p) = true →
  time_time e - last_access_time w > CACHE_EXPIRY_TIME →
  sweeper k e w
  = (Ok (), with_time (with_cached k (remove_existing p w).2 None) 0).
Proof.
  intros Hc Ht Hi.
  destruct (remove_existing_run p w) as (Hok & _).
  destruct k; cbn [sweeper cached_path with_cached] in *;
    unfold clean_cache, clean_audio_cache; unfold bind at 1; unfold get;
    rewrite Hc, Ht; cbn [andb];
    (destruct (Z.gtb_spec (time_time e - last_access_time w) CACHE_EXPIRY_TIME);
     [|lia]);
    unfold bind at 1; unfold bind at 1;
    destruct (remove_existing p w) as [[[]|y] w1]; cbn [fst] in Hok;
    try discriminate; reflexivity.
Qed.

Lemma sweeper_fresh (k : MediaKind) (e : Env) (w : World) :
  truthy (cached_path k w)
  && (time_time e - last_access_time w >? CACHE_EXPIRY_TIME) = false →
  sweeper k e w = (Ok (), w).
Proof.
  intros H. destruct k; cbn [sweeper cached_path] in *;
    unfold clean_cache, clean_audio_cache; unfold bind at 1; unfold get;
    rewrite H; reflexivity.
Qed.

(** C4. With a resident in the slot, one sweep removes the resident file
    and empties the slot exactly when the time since the last access is
    strictly more than 900 seconds, and otherwise changes nothing; after a
    hit, a sweep at the same clock reading, or at any reading within the
    threshold, does not evict. *)
Theorem C4_sweep_evicts_iff_idle (k : MediaKind) (e : Env) (w : World)
    (p : string) :
  cached_path k w = Some p → truthy (Some p) = true →
  CACHE_EXPIRY_TIME = 900
  ∧ ((cached_path k (sweeper k e w).2 = None ∧ p ∉ fs (sweeper k e w).2)
     ↔ time_time e - last_access_time w > CACHE_EXPIRY_TIME)
  ∧ (time_time e - last_access_time w ≤ CACHE_EXPIRY_TIME →
     (sweeper k e w).2 = w)
  ∧ (∀ e0 url,
       lookup (cached_path k w) (cache_filename k url) = Some p →
       time_time e - time_time e0 ≤ CACHE_EXPIRY_TIME →
       (handler k e0 url w).2 = with_time w (time_time e0)
       ∧ (sweeper k e (handler k e0 url w).2).2 = (handler k e0 url w).2).
Proof.
  intros Hc Ht. split; [reflexivity|].
  assert (Hfresh : ∀ w0 : World,
             time_time e - last_access_time w0 ≤ CACHE_EXPIRY_TIME →
             (sweeper k e w0).2 = w0).
  { intros w0 Hle. rewrite sweeper_fresh; [reflexivity|].
    destruct (Z.gtb_spec (time_time e - last_access_time w0) CACHE_EXPIRY_TIME);
      [lia | apply andb_false_r]. }
  split; [|split].
  - destruct (Z_gt_le_dec (time_time e - last_access_time w) CACHE_EXPIRY_TIME)
      as [Hi|Hle].
    + rewrite (sweeper_idle k e w p Hc Ht Hi). cbn [snd].
      destruct (remove_existing_run p w) as (_ & _ & Hp & _).
      split; [intros _; exact Hi | intros _].
      split; [destruct k; reflexivity | destruct k; exact Hp].
    + rewrite (Hfresh w Hle). split; [|lia].
      intros [Hnone _]. congruence.
  - apply Hfresh.
  - intros e0 url Hl Hle.
    destruct (handler_cases k e0 url w) as [(q & Hq & H) | (Hn & _)];
      [|congruence].
    rewrite H. cbn [snd]. split; [reflexivity|].
    apply Hfresh. cbn [with_time last_access_time]. exact Hle.
Qed.

Lemma C4_sweep_witness :
  cached_path Video scenario_world
  = Some "/tmp/video_cache/2b6a374db3ab8f57f12fc5ebaf42145e.mp4"
  ∧ (cached_path Video
       (sweeper Video (scenario_env 1101 ydl_silent) scenario_world).2 = None
     ∧ "/tmp/video_cache/2b6a374db3ab8f57f12fc5ebaf42145e.mp4"
       ∉ fs (sweeper Video (scenario_env 1101 ydl_silent) scenario_world).2)
  ∧ (sweeper Video (scenario_env 1100 ydl_silent) scenario_world).2
    = scenario_world.
Proof.
  split; [compute_done|]. split.
  - destruct (C4_sweep_evicts_iff_idle Video (scenario_env 1101 ydl_silent)
                scenario_world
                "/tmp/video_cache/2b6a374db3ab8f57f12fc5ebaf42145e.mp4")
      as (_ & Hiff & _); [compute_done | compute_done |].
    apply Hiff. compute_done.
  - destruct (C4_sweep_evicts_iff_idle Video (scenario_env 1100 ydl_silent)
                scenario_world
                "/tmp/video_cache/2b6a374db3ab8f57f12fc5ebaf42145e.mp4")
      as (_ & _ & Hkeep & _); [compute_done | compute_done |].
    apply Hkeep. compute_done.
Defined.

(** ** Replacement and hits *)

(** A request that succeeds past a miss has replaced the resident. *)
Lemma handler_ok_after_miss (k : MediaKind) (e : Env) (url : string)
    (w : World) (r : FileResponse) (w' : World) :
  lookup (cached_path k w) (cache_filename k url) = None →
  handler k e url w = (Ok r, w') →
  ∃ w1, acquire k e url w = (Ok (), w1)
    ∧ same_globals w w1
    ∧ cache_filepath k url ∈ fs w1
    ∧ r = mkFileResponse (cache_filepath k url) (content_type k)
            (cache_filename k url)
    ∧ w' = with_time
             (with_cached k (remove_old (cached_path k w) w1).2
                (Some (cache_filepath k url)))
             (time_time e).
Proof.
  intros Hl Hr.
  destruct (handler_cases k e url w)
    as [(p & Hp & _) | (_ & w1 & Hg & [(x & _ & H) | [(_ & _ & H) | (Ha & Hin & H)]])];
    [congruence | | |].
  - rewrite H in Hr.
    destruct (on_exception_run (cache_filepath k url) x w1) as (H1 & _).
    rewrite Hr in H1. discriminate.
  - rewrite H in Hr.
    destruct (on_exception_run (cache_filepath k url)
                (HTTPException 404 (not_found_detail k)) w1) as (H1 & _).
    rewrite Hr in H1. discriminate.
  - rewrite H in Hr. injection Hr as <- <-. exists w1.
    rewrite (same_globals_cached k w w1 Hg). auto.
Qed.

Lemma handler_ok_pair (k : MediaKind) (e : Env) (url : string) (w : World)
    (r : FileResponse) :
  (handler k e url w).1 = Ok r →
  handler k e url w = (Ok r, (handler k e url w).2).
Proof. destruct (handler k e url w) as [r' w']. cbn. now intros ->. Qed.

(** C6. When the slot holds a resident [p1] and a request whose cache name
    differs from the name of [p1] succeeds, then afterwards the file at
    [p1] does not exist, looking up the old name misses, and the slot
    holds the new path, whose name is that of the request and whose file
    exists. *)
Theorem C6_replace_removes_previous (k : MediaKind) (e : Env) (url : string)
    (w : World) (p1 : string) (r : FileResponse) :
  cached_path k w = Some p1 → truthy (Some p1) = true →
  os_path.basename p1 ≠ cache_filename k url →
  (handler k e url w).1 = Ok r →
  (p1 ∉ fs (handler k e url w).2)
  ∧ lookup (cached_path k (handler k e url w).2) (os_path.basename p1) = None
  ∧ cached_path k (handler k e url w).2 = Some (cache_filepath k url)
  ∧ os_path.basename (cache_filepath k url) = cache_filename k url
  ∧ cache_filepath k url ∈ fs (handler k e url w).2
  ∧ path r = cache_filepath k url.
Proof.
  intros Hc Ht Hne Hr%handler_ok_pair.
  assert (Hl : lookup (cached_path k w) (cache_filename k url) = None).
  { apply lookup_none_iff. intros q Hq _. congruence. }
  destruct (handler_ok_after_miss k e url w r _ Hl Hr)
    as (w1 & _ & _ & Hin & -> & ->).
  rewrite Hc.
  destruct (remove_old_run (Some p1) w1) as (_ & _ & Hgone & Hkeep).
  destruct (cached_path_with_cached k (remove_old (Some p1) w1).2
              (Some (cache_filepath k url))) as (Hk & _ & _ & Hfs).
  assert (Hck : cached_path k
                  (with_time
                     (with_cached k (remove_old (Some p1) w1).2
                        (Some (cache_filepath k url))) (time_time e))
                = Some (cache_filepath k url)) by (destruct k; exact Hk).
  assert (Hfsk : fs (with_time
                       (with_cached k (remove_old (Some p1) w1).2
                          (Some (cache_filepath k url))) (time_time e))
                 = fs (remove_old (Some p1) w1).2) by (destruct k; exact Hfs).
  rewrite Hck, Hfsk.
  split; [exact (Hgone p1 eq_refl Ht)|].
  split.
  { apply lookup_none_iff. intros q [= <-] _.
    rewrite cache_filepath_basename. congruence. }
  split; [reflexivity|].
  split; [apply cache_filepath_basename|].
  split; [|reflexivity].
  apply Hkeep; [|exact Hin].
  intros [= ->]. apply Hne, cache_filepath_basename.
Qed.

Lemma C6_replace_witness :
  cached_path Video scenario_world
  = Some "/tmp/video_cache/2b6a374db3ab8f57f12fc5ebaf42145e.mp4"
  ∧ "/tmp/video_cache/2b6a374db3ab8f57f12fc5ebaf42145e.mp4" ∈ fs scenario_world
  ∧ ("/tmp/video_cache/2b6a374db3ab8f57f12fc5ebaf42145e.mp4"
     ∉ fs (handler Video (scenario_env 300 ydl_writes) "https://x/2"
             scenario_world).2)
  ∧ cached_path Video
      (handler Video (scenario_env 300 ydl_writes) "https://x/2"
         scenario_world).2
    = Some "/tmp/video_cache/2261a33c50b05c275acf523c6e502e53.mp4".
Proof.
  split; [compute_done|]. split; [compute_done|].
  destruct (C6_replace_removes_previous Video (scenario_env 300 ydl_writes)
              "https://x/2" scenario_world
              "/tmp/video_cache/2b6a374db3ab8f57f12fc5ebaf42145e.mp4"
              (mkFileResponse
                 "/tmp/video_cache/2261a33c50b05c275acf523c6e502e53.mp4"
                 "video/mp4" "2261a33c50b05c275acf523c6e502e53.mp4"))
    as (H1 & _ & H3 & _);
    [compute_done | compute_done | compute_done | compute_done |].
  split; [exact H1 | rewrite H3; compute_done].
Defined.

(** C7. After a request that missed and succeeded, the slot holds the
    destination path of the request and its file exists; any further
    request for the same URL is answered from that path without running
    the acquisition: the file system is as before and only the last access
    time changes, to the clock reading of the new request. *)
Theorem C7_hit_after_replace (k : MediaKind) (e : Env) (url : string)
    (w : World) (r : FileResponse) :
  lookup (cached_path k w) (cache_filename k url) = None →
  (handler k e url w).1 = Ok r →
  lookup (cached_path k (handler k e url w).2) (cache_filename k url)
  = Some (cache_filepath k url)
  ∧ cache_filepath k url ∈ fs (handler k e url w).2
  ∧ ∀ e2,
      handler k e2 url (handler k e url w).2
      = (Ok (mkFileResponse (cache_filepath k url) (content_type k)
               (cache_filename k url)),
         with_time (handler k e url w).2 (time_time e2)).
Proof.
  intros Hl Hr%handler_ok_pair.
  destruct (handler_ok_after_miss k e url w r _ Hl Hr)
    as (w1 & _ & _ & Hin & _ & ->).
  destruct (remove_old_run (cached_path k w) w1) as (_ & _ & _ & Hkeep).
  destruct (cached_path_with_cached k (remove_old (cached_path k w) w1).2
              (Some (cache_filepath k url))) as (Hk & _ & _ & Hfs).
  set (w2 := with_cached k (remove_old (cached_path k w) w1).2
               (Some (cache_filepath k url))) in *.
  assert (Hck : cached_path k (with_time w2 (time_time e))
                = Some (cache_filepath k url)) by (destruct k; exact Hk).
  assert (Hlk : lookup (cached_path k (with_time w2 (time_time e)))
                  (cache_filename k url) = Some (cache_filepath k url)).
  { rewrite Hck. apply lookup_cache_filepath. }
  split; [exact Hlk|]. split.
  - change (fs (with_time w2 (time_time e))) with (fs w2). rewrite Hfs.
    apply Hkeep; [|exact Hin].
    intros Hsame. rewrite Hsame, lookup_cache_filepath in Hl. discriminate.
  - intros e2. rewrite handler_of_try.
    now rewrite (try_body_hit k e2 url _ _ Hlk).
Qed.

Lemma C7_hit_witness :
  lookup (cached_path Video (startup (scenario_env 0 ydl_writes)))
    (cache_filename Video "https://x/1") = None
  ∧ handler Video (scenario_env 250 ydl_fails) "https://x/1"
      (handler Video (scenario_env 100 ydl_writes) "https://x/1"
         (startup (scenario_env 0 ydl_writes))).2
    = (Ok (mkFileResponse
             "/tmp/video_cache/2b6a374db3ab8f57f12fc5ebaf42145e.mp4"
             "video/mp4" "2b6a374db3ab8f57f12fc5ebaf42145e.mp4"),
       with_time
         (handler Video (scenario_env 100 ydl_writes) "https://x/1"
            (startup (scenario_env 0 ydl_writes))).2 250).
Proof.
  split; [compute_done|].
  destruct (C7_hit_after_replace Video (scenario_env 100 ydl_writes)
              "https://x/1" (startup (scenario_env 0 ydl_writes))
              (mkFileResponse
                 "/tmp/video_cache/2b6a374db3ab8f57f12fc5ebaf42145e.mp4"
                 "video/mp4" "2b6a374db3ab8f57f12fc5ebaf42145e.mp4"))
    as (_ & _ & H); [compute_done | compute_done |].
  rewrite (H (scenario_env 250 ydl_fails)). compute_done.
Defined.

(** C8. A request whose cache name differs from the name of the resident
    is a miss, and the resident stays unless the request goes on to
    replace it: when the request fails, the slot (resident path and last
    access) is as before and the handler has not deleted the resident
    file; when it succeeds, the slot holds the new path. *)
Theorem C8_miss_keeps_resident (k : MediaKind) (e : Env) (url : string)
    (w : World) (p : string) :
  cached_path k w = Some p →
  os_path.basename p ≠ cache_filename k url →
  lookup (cached_path k w) (cache_filename k url) = None
  ∧ match (handler k e url w).1 with
    | Raise _ =>
        slot_state k (handler k e url w).2 = slot_state k w
        ∧ (p ∈ fs (acquire k e url w).2 → p ∈ fs (handler k e url w).2)
    | Ok r =>
        cached_path k (handler k e url w).2 = Some (cache_filepath k url)
        ∧ path r = cache_filepath k url
    end.
Proof.
  intros Hc Hne.
  assert (Hl : lookup (cached_path k w) (cache_filename k url) = None).
  { apply lookup_none_iff. intros q Hq _. congruence. }
  split; [exact Hl|].
  assert (Hpn : p ≠ cache_filepath k url).
  { intros ->. apply Hne, cache_filepath_basename. }
  assert (Hfail : ∀ x w1, acquire k e url w = (x, w1) → same_globals w w1 →
            ∀ y, handler k e url w = on_exception (cache_filepath k url) y w1 →
            match (handler k e url w).1 with
            | Raise _ =>
                slot_state k (handler k e url w).2 = slot_state k w
                ∧ (p ∈ fs (acquire k e url w).2 → p ∈ fs (handler k e url w).2)
            | Ok r =>
                cached_path k (handler k e url w).2 = Some (cache_filepath k url)
                ∧ path r = cache_filepath k url
            end).
  { intros x w1 Ha Hg y H. rewrite H, Ha. cbn [snd].
    destruct (on_exception_run (cache_filepath k url) y w1) as (H1 & H2 & _ & H4).
    rewrite H1. split.
    - pose proof (same_globals_trans _ _ _ Hg H2) as Hg'.
      unfold slot_state. rewrite (same_globals_cached k _ _ Hg').
      destruct Hg' as (_ & _ & ->). reflexivity.
    - intros Hp. apply H4; assumption. }
  destruct (handler_cases k e url w)
    as [(q & Hq & _) | (_ & w1 & Hg & [(x & Ha & H) | [(Ha & _ & H) | (_ & _ & H)]])];
    [ congruence | exact (Hfail _ _ Ha Hg _ H) | exact (Hfail _ _ Ha Hg _ H) |].
  rewrite H. cbn [fst snd path]. split; [|reflexivity].
  destruct k; reflexivity.
Qed.

Lemma C8_miss_witness :
  cached_path Video scenario_world
  = Some "/tmp/video_cache/2b6a374db3ab8f57f12fc5ebaf42145e.mp4"
  ∧ lookup (cached_path Video scenario_world)
      (cache_filename Video "https://x/3") = None
  ∧ slot_state Video
      (handler Video (scenario_env 300 ydl_fails) "https://x/3" scenario_world).2
    = slot_state Video scenario_world
  ∧ "/tmp/video_cache/2b6a374db3ab8f57f12fc5ebaf42145e.mp4"
    ∈ fs (handler Video (scenario_env 300 ydl_fails) "https://x/3"
            scenario_world).2.
Proof.
  split; [compute_done|].
  destruct (C8_miss_keeps_resident Video (scenario_env 300 ydl_fails)
              "https://x/3" scenario_world
              "/tmp/video_cache/2b6a374db3ab8f57f12fc5ebaf42145e.mp4")
    as (Hl & H); [compute_done | compute_done |].
  split; [exact Hl|].
  assert (Hr : (handler Video (scenario_env 300 ydl_fails) "https://x/3"
                  scenario_world).1
               = Raise (HTTPException 500 "ERROR: Unsupported URL"))
    by compute_done.
  rewrite Hr in H. destruct H as (Hs & Hf).
  split; [exact Hs | apply Hf; compute_done].
Defined.

(** ** The two slots *)

(** C3 fails as stated: a video hit at time 300 moves the last access of
    the audio slot from 200 to 300, and a video eviction resets it to 0;
    either way the state of the audio slot is not what it was. *)
Lemma C3_video_operation_moves_audio_clock :
  slot_state Audio scenario_world
  = (Some "/tmp/audio_cache/2b6a374db3ab8f57f12fc5ebaf42145e.mp3", 200)
  ∧ slot_state Audio
      (download_video (scenario_env 300 ydl_silent) "https://x/1"
         scenario_world).2
    = (Some "/tmp/audio_cache/2b6a374db3ab8f57f12fc5ebaf42145e.mp3", 300)
  ∧ slot_state Audio (clean_cache (scenario_env 1101 ydl_silent) scenario_world).2
    = (Some "/tmp/audio_cache/2b6a374db3ab8f57f12fc5ebaf42145e.mp3", 0)
  ∧ slot_state Audio
      (download_video (scenario_env 300 ydl_silent) "https://x/1"
         scenario_world).2
    ≠ slot_state Audio scenario_world
  ∧ slot_state Audio (clean_cache (scenario_env 1101 ydl_silent) scenario_world).2
    ≠ slot_state Audio scenario_world.
Proof.
  split; [vm_compute; reflexivity|]. split; [vm_compute; reflexivity|].
  split; [vm_compute; reflexivity|]. split; vm_compute; discriminate.
Qed.

Lemma sweeper_other (k : MediaKind) (e : Env) (w : World) :
  cached_path (other k) (sweeper k e w).2 = cached_path (other k) w
  ∧ last_access_time (sweeper k e w).2
    = if truthy (cached_path k w)
         && (time_time e - last_access_time w >? CACHE_EXPIRY_TIME)
      then 0 else last_access_time w.
Proof.
  destruct (truthy (cached_path k w)
            && (time_time e - last_access_time w >? CACHE_EXPIRY_TIME)) eqn:Hb.
  - apply andb_prop in Hb as [Ht Hi].
    destruct (cached_path k w) as [p|] eqn:Hc; [|discriminate].
    rewrite (sweeper_idle k e w p Hc Ht) by (apply Z.lt_gt, Z.gtb_lt, Hi).
    destruct (remove_existing_run p w) as (_ & Hg & _).
    cbn [snd]. split; [|destruct k; reflexivity].
    destruct Hg as (Hv & Ha & _). destruct k; simpl; assumption.
  - now rewrite (sweeper_fresh k e w Hb).
Qed.

(** C3, as the code has it. An operation on the slot of one kind (a hit, a
    replace, a failed request, a sweep) leaves the resident path of the
    other kind, and so its resident fingerprint, unchanged. The last
    access time is one value shared by both kinds: a request that succeeds
    sets it to its clock reading, a request that fails keeps it, and a
    sweep that evicts resets it to 0. *)
Theorem C3_other_slot_path_kept (k : MediaKind) (e : Env) (url : string)
    (w : World) :
  cached_path (other k) (handler k e url w).2 = cached_path (other k) w
  ∧ cached_path (other k) (sweeper k e w).2 = cached_path (other k) w
  ∧ last_access_time (handler k e url w).2
    = match (handler k e url w).1 with
      | Ok _ => time_time e
      | Raise _ => last_access_time w
      end
  ∧ last_access_time (sweeper k e w).2
    = if truthy (cached_path k w)
         && (time_time e - last_access_time w >? CACHE_EXPIRY_TIME)
      then 0 else last_access_time w.
Proof.
  destruct (sweeper_other k e w) as (Hs1 & Hs2).
  assert (Hh : cached_path (other k) (handler k e url w).2
               = cached_path (other k) w
               ∧ last_access_time (handler k e url w).2
                 = match (handler k e url w).1 with
                   | Ok _ => time_time e
                   | Raise _ => last_access_time w
                   end); [|tauto].
  assert (Hfail : ∀ w1 y, same_globals w w1 →
            handler k e url w = on_exception (cache_filepath k url) y w1 →
            cached_path (other k) (handler k e url w).2
            = cached_path (other k) w
            ∧ last_access_time (handler k e url w).2
              = match (handler k e url w).1 with
                | Ok _ => time_time e
                | Raise _ => last_access_time w
                end).
  { intros w1 y Hg H. rewrite H.
    destruct (on_exception_run (cache_filepath k url) y w1) as (H1 & H2 & _).
    rewrite H1. pose proof (same_globals_trans _ _ _ Hg H2) as Hg'.
    split; [apply (same_globals_cached _ _ _ Hg') | apply Hg']. }
  destruct (handler_cases k e url w)
    as [(q & _ & H) | (_ & w1 & Hg & [(x & _ & H) | [(_ & _ & H) | (_ & _ & H)]])];
    [| exact (Hfail _ _ Hg H) | exact (Hfail _ _ Hg H) |].
  - rewrite H. cbn [fst snd]. split; destruct k; reflexivity.
  - rewrite H. cbn [fst snd].
    destruct (remove_old_run (cached_path k w1) w1) as (_ & Hg2 & _).
    pose proof (same_globals_trans _ _ _ Hg Hg2) as Hg'.
    split; [|destruct k; reflexivity].
    destruct Hg' as (Hv & Ha & _). destruct k; simpl; assumption.
Qed.

(** ** The ffmpeg installer *)

Lemma bind_ok_inv {A B} (m : M A) (k : A → M B) (w : World) (b : B) (w' : World) :
  bind m k w = (Ok b, w') → ∃ a w1, m w = (Ok a, w1) ∧ k a w1 = (Ok b, w').
Proof.
  unfold bind. destruct (m w) as [[a|x] w1]; [eauto | discriminate].
Qed.

Lemma ffmpeg_present (e : Env) (w : World) :
  os_path.join (CONFIG_DIR e) "ffmpeg" ∈ fs w →
  download_and_extract_ffmpeg e w
  = (Ok (os_path.join (CONFIG_DIR e) "ffmpeg"), w).
Proof.
  intros H. unfold download_and_extract_ffmpeg. unfold bind at 1, exists_.
  now rewrite (bool_decide_eq_true_2 _ H).
Qed.

(** A successful run returns the fixed path, and the binary is there. *)
Lemma ffmpeg_ok_present (e : Env) (w : World) (p : string) (w' : World) :
  download_and_extract_ffmpeg e w = (Ok p, w') →
  p = os_path.join (CONFIG_DIR e) "ffmpeg" ∧ p ∈ fs w'.
Proof.
  destruct (decide (os_path.join (CONFIG_DIR e) "ffmpeg" ∈ fs w)) as [Hin|Hout].
  - rewrite (ffmpeg_present e w Hin). now intros [= <- <-].
  - unfold download_and_extract_ffmpeg. unfold bind at 1. unfold exists_ at 1.
    rewrite (bool_decide_eq_false_2 _ Hout).
    intros H. repeat (apply bind_ok_inv in H as (? & ? & ? & H)).
    match goal with
    | Hx : exists_ _ _ = (Ok _, _) |- _ =>
        unfold exists_ in Hx; injection Hx as <- <-
    end.
    unfold raise, ret in H.
    destruct (bool_decide _) eqn:Hb in H; cbn [negb] in H; [|discriminate].
    injection H as <- <-. split; [reflexivity|].
    now apply bool_decide_eq_true_1 in Hb.
Qed.

(** C9. When the binary is already at its place in the configuration
    directory, the installer returns that path and changes nothing (no
    download, no file touched); so after a run that succeeded, a second
    run returns the same path and leaves the world as the first left it. *)
Theorem C9_ffmpeg_install_idempotent (e : Env) (w : World) :
  (os_path.join (CONFIG_DIR e) "ffmpeg" ∈ fs w →
   download_and_extract_ffmpeg e w
   = (Ok (os_path.join (CONFIG_DIR e) "ffmpeg"), w))
  ∧ (∀ p, (download_and_extract_ffmpeg e w).1 = Ok p →
     ∀ e', environ_CONFIG e' = environ_CONFIG e →
           download_and_extract_ffmpeg e' (download_and_extract_ffmpeg e w).2
           = (Ok p, (download_and_extract_ffmpeg e w).2)).
Proof.
  split; [apply ffmpeg_present|].
  intros p H e' He.
  assert (H' : download_and_extract_ffmpeg e w
               = (Ok p, (download_and_extract_ffmpeg e w).2)).
  { destruct (download_and_extract_ffmpeg e w) as [r w']. cbn in *. now subst. }
  apply ffmpeg_ok_present in H' as [-> Hin].
  assert (Hc : CONFIG_DIR e' = CONFIG_DIR e) by (unfold CONFIG_DIR; now rewrite He).
  rewrite <- Hc in *. now apply ffmpeg_present.
Qed.

Lemma C9_ffmpeg_install_witness :
  ("/config/ffmpeg" ∉ fs (startup (scenario_env 0 ydl_silent)))
  ∧ (download_and_extract_ffmpeg (scenario_env 0 ydl_silent)
       (startup (scenario_env 0 ydl_silent))).1 = Ok "/config/ffmpeg"
  ∧ download_and_extract_ffmpeg (scenario_env 50 ydl_fails)
      (download_and_extract_ffmpeg (scenario_env 0 ydl_silent)
         (startup (scenario_env 0 ydl_silent))).2
    = (Ok "/config/ffmpeg",
       (download_and_extract_ffmpeg (scenario_env 0 ydl_silent)
          (startup (scenario_env 0 ydl_silent))).2)
  ∧ download_and_extract_ffmpeg (scenario_env 50 ydl_fails) scenario_world
    = (Ok "/config/ffmpeg", scenario_world).
Proof.
  split; [compute_done|]. split; [compute_done|].
  destruct (C9_ffmpeg_install_idempotent (scenario_env 0 ydl_silent)
              (startup (scenario_env 0 ydl_silent))) as (_ & Htwice).
  destruct (C9_ffmpeg_install_idempotent (scenario_env 50 ydl_fails)
              scenario_world) as (Hthere & _).
  split.
  - apply (Htwice "/config/ffmpeg"); compute_done.
  - apply Hthere. compute_done.
Defined.

(** ** Reachable states *)

Lemma handler_paths (k : MediaKind) (e : Env) (url : string) (w : World) :
  cached_path (other k) (handler k e url w).2 = cached_path (other k) w
  ∧ (cached_path k (handler k e url w).2 = cached_path k w
     ∨ cached_path k (handler k e url w).2 = Some (cache_filepath k url)).
Proof.
  assert (Hfail : ∀ w1 y, same_globals w w1 →
            handler k e url w = on_exception (cache_filepath k url) y w1 →
            cached_path (other k) (handler k e url w).2 = cached_path (other k) w
            ∧ (cached_path k (handler k e url w).2 = cached_path k w
               ∨ cached_path k (handler k e url w).2
                 = Some (cache_filepath k url))).
  { intros w1 y Hg H. rewrite H.
    destruct (on_exception_run (cache_filepath k url) y w1) as (_ & H2 & _).
    pose proof (same_globals_trans _ _ _ Hg H2) as Hg'.
    split; [|left]; apply (same_globals_cached _ _ _ Hg'). }
  destruct (handler_cases k e url w)
    as [(q & _ & H) | (_ & w1 & Hg & [(x & _ & H) | [(_ & _ & H) | (_ & _ & H)]])];
    [| exact (Hfail _ _ Hg H) | exact (Hfail _ _ Hg H) |].
  - rewrite H. cbn [snd]. split; [|left]; destruct k; reflexivity.
  - rewrite H. cbn [snd].
    destruct (remove_old_run (cached_path k w1) w1) as (_ & Hg2 & _).
    destruct (same_globals_trans _ _ _ Hg Hg2) as (Hv & Ha & _).
    split; [|right]; destruct k; simpl; auto.
Qed.

Lemma step_residents_named (w : World) (o : op) :
  residents_named w → residents_named (step w o).
Proof.
  intros Hw. destruct o as [k e url|k e]; cbn [step].
  - destruct (handler_paths k e url w) as (Hother & Hsame).
    intros k' p Hp. destruct (decide (k' = k)) as [->|Hne].
    + destruct Hsame as [Hs|Hs]; rewrite Hs in Hp; [apply Hw, Hp|].
      injection Hp as <-. eauto.
    + assert (k' = other k) as -> by (destruct k, k'; try reflexivity; contradiction).
      rewrite Hother in Hp. apply Hw, Hp.
  - destruct (sweeper_other k e w) as (Hother & _).
    intros k' p Hp. destruct (decide (k' = k)) as [->|Hne].
    + destruct (truthy (cached_path k w)
                && (time_time e - last_access_time w >? CACHE_EXPIRY_TIME)) eqn:Hb.
      * apply andb_prop in Hb as [Ht Hi].
        destruct (cached_path k w) as [q|] eqn:Hc; [|discriminate].
        rewrite (sweeper_idle k e w q Hc Ht) in Hp
          by (apply Z.lt_gt, Z.gtb_lt, Hi).
        cbn [snd] in Hp. destruct k; discriminate.
      * rewrite (sweeper_fresh k e w Hb) in Hp. apply Hw, Hp.
    + assert (k' = other k) as -> by (destruct k, k'; try reflexivity; contradiction).
      rewrite Hother in Hp. apply Hw, Hp.
Qed.

Lemma run_residents_named (ops : list op) (w : World) :
  residents_named w → residents_named (run ops w).
Proof.
  revert w. induction ops as [|o ops IH]; intros w Hw; [exact Hw|].
  apply IH, step_residents_named, Hw.
Qed.

(** In every state reached from start-up by requests and sweeps, a
    resident path of a kind is the destination path of some URL of that
    kind: it lies directly below the cache directory of the kind, and it
    is not the resident path of the other kind. *)
Theorem reachable_residents_in_own_directory (e0 : Env) (ops : list op)
    (k : MediaKind) (p : string) :
  cached_path k (run ops (startup e0)) = Some p →
  (∃ url, p = cache_filepath k url)
  ∧ os_path.dirname p = cache_dir k
  ∧ cached_path (other k) (run ops (startup e0)) ≠ Some p.
Proof.
  intros Hp.
  assert (Hn : residents_named (run ops (startup e0))).
  { apply run_residents_named. intros k' q Hq. destruct k'; discriminate. }
  destruct (Hn k p Hp) as (url & ->).
  split; [eauto|]. split; [apply cache_filepath_dirname|].
  intros Ho. destruct (Hn (other k) _ Ho) as (url' & Heq).
  apply (f_equal os_path.dirname) in Heq.
  rewrite !cache_filepath_dirname in Heq. destruct k; discriminate.
Qed.

Lemma reachable_residents_witness :
  cached_path Audio
    (run [Request Video (scenario_env 100 ydl_writes) "https://x/1";
          Request Audio (scenario_env 200 ydl_writes) "https://x/1";
          Sweep Video (scenario_env 1101 ydl_silent)]
       (startup (scenario_env 0 ydl_writes)))
  = Some "/tmp/audio_cache/2b6a374db3ab8f57f12fc5ebaf42145e.mp3"
  ∧ os_path.dirname "/tmp/audio_cache/2b6a374db3ab8f57f12fc5ebaf42145e.mp3"
    = "/tmp/audio_cache".
Proof.
  split; [compute_done|].
  destruct (reachable_residents_in_own_directory (scenario_env 0 ydl_writes)
              [Request Video (scenario_env 100 ydl_writes) "https://x/1";
               Request Audio (scenario_env 200 ydl_writes) "https://x/1";
               Sweep Video (scenario_env 1101 ydl_silent)]
              Audio "/tmp/audio_cache/2b6a374db3ab8f57f12fc5ebaf42145e.mp3")
    as (_ & Hd & _); [compute_done | exact Hd].
Defined.

(** A sweep of a slot without a resident changes nothing, and after a
    sweep that evicts, looking up any name in the slot misses. *)
Theorem sweep_empty_or_evicted (k : MediaKind) (e : Env) (w : World) :
  (truthy (cached_path k w) = false → sweeper k e w = (Ok (), w))
  ∧ (truthy (cached_path k w) = true →
     time_time e - last_access_time w > CACHE_EXPIRY_TIME →
     ∀ f, lookup (cached_path k (sweeper k e w).2) f = None).
Proof.
  split.
  - intros Ht. apply sweeper_fresh. now rewrite Ht.
  - intros Ht Hi f.
    destruct (cached_path k w) as [p|] eqn:Hc; [|discriminate].
    rewrite (sweeper_idle k e w p Hc Ht Hi). cbn [snd].
    destruct k; reflexivity.
Qed.

Lemma sweep_empty_or_evicted_witness :
  sweeper Audio (scenario_env 5000 ydl_silent) (startup (scenario_env 0 ydl_silent))
  = (Ok (), startup (scenario_env 0 ydl_silent))
  ∧ lookup
      (cached_path Video
         (sweeper Video (scenario_env 1101 ydl_silent) scenario_world).2)
      (cache_filename Video "https://x/1") = None.
Proof.
  destruct (sweep_empty_or_evicted Audio (scenario_env 5000 ydl_silent)
              (startup (scenario_env 0 ydl_silent))) as (Hempty & _).
  destruct (sweep_empty_or_evicted Video (scenario_env 1101 ydl_silent)
              scenario_world) as (_ & Hevicted).
  split; [apply Hempty; compute_done | apply Hevicted; compute_done].
Defined.

(** Whatever makes a request end in an exception (the installer, the
    options file or the downloader raising, or the output file missing
    after the download), the request was a miss, the three globals are as
    before it, and nothing is left at its destination path. *)
Theorem failed_request_leaves_globals (k : MediaKind) (e : Env) (url : string)
    (w : World) (y : exn) :
  (handler k e url w).1 = Raise y →
  lookup (cached_path k w) (cache_filename k url) = None
  ∧ same_globals w (handler k e url w).2
  ∧ cache_filepath k url ∉ fs (handler k e url w).2.
Proof.
  intros Hy. destruct (handler_raise_frame k e url w y Hy) as (_ & Hg & Hn).
  split; [|split; assumption].
  destruct (handler_cases k e url w) as [(p & _ & H) | (Hl & _)];
    [|exact Hl].
  rewrite H in Hy. discriminate.
Qed.

Lemma failed_request_witness :
  (handler Audio (scenario_env 300 ydl_silent) "https://x/9" scenario_world).1
  = Raise (HTTPException 500 "404: Audio download failed")
  ∧ same_globals scenario_world
      (handler Audio (scenario_env 300 ydl_silent) "https://x/9" scenario_world).2.
Proof.
  split; [compute_done|].
  destruct (failed_request_leaves_globals Audio (scenario_env 300 ydl_silent)
              "https://x/9" scenario_world
              (HTTPException 500 "404: Audio download failed"))
    as (_ & Hg & _); [compute_done | exact Hg].
Defined.

(** ** Resident files along a run *)

Lemma cache_filepath_kinds_apart (k : MediaKind) (u u' : string) :
  cache_filepath k u ≠ cache_filepath (other k) u'.
Proof.
  intros Heq. apply (f_equal os_path.dirname) in Heq.
  rewrite !cache_filepath_dirname in Heq. destruct k; discriminate.
Qed.

Lemma lookup_none_not_destination (k : MediaKind) (url : string) (c : option string) :
  lookup c (cache_filename k url) = None → c ≠ Some (cache_filepath k url).
Proof.
  intros Hl ->. rewrite lookup_cache_filepath in Hl. discriminate.
Qed.

Lemma other_kind (k k' : MediaKind) : k' ≠ k → k' = other k.
Proof. destruct k, k'; intros H; try reflexivity; contradiction. Qed.

Lemma acquisition_keeps_residents_miss (k : MediaKind) (e : Env) (url : string)
    (w : World) (k' : MediaKind) (p : string) :
  acquisition_keeps_residents k e url w = true →
  lookup (cached_path k w) (cache_filename k url) = None →
  cached_path k' w = Some p → p ∈ fs (acquire k e url w).2.
Proof.
  unfold acquisition_keeps_residents. intros H Hl Hp. rewrite Hl in H.
  cbn [forallb] in H. apply andb_prop in H as [Hv [Ha _]%andb_prop].
  destruct k'; cbn [cached_path] in *; rewrite Hp in *;
    [apply (bool_decide_eq_true_1 _ Hv) | apply (bool_decide_eq_true_1 _ Ha)].
Qed.

Lemma step_residents_exist (w : World) (o : op) :
  residents_named w → residents_exist w →
  residents_kept [o] w = true →
  residents_exist (step w o).
Proof.
  intros Hn Hx Hk. cbn [residents_kept] in Hk. rewrite andb_true_r in Hk.
  destruct o as [k e url|k e]; cbn [step].
  - pose proof (handler_paths k e url w) as (Hother & _).
    destruct (handler_cases k e url w)
      as [(q & _ & H) | (Hl & w1 & Hg & Hcases)].
    + rewrite H. cbn [snd]. intros k' p Hp. apply (Hx k' p).
      destruct k'; exact Hp.
    + assert (Hkeep : ∀ k' p, cached_path k' w = Some p → p ∈ fs w1).
      { intros k' p Hp.
        pose proof (acquisition_keeps_residents_miss k e url w k' p Hk Hl Hp) as Hin.
        destruct Hcases as [(x & Ha & _) | [(Ha & _) | (Ha & _)]];
          rewrite Ha in Hin; exact Hin. }
      assert (Hne : ∀ k' p, cached_path k' w = Some p → p ≠ cache_filepath k url).
      { intros k' p Hp ->. destruct (decide (k' = k)) as [->|Hd].
        - apply (lookup_none_not_destination k url _ Hl Hp).
        - apply other_kind in Hd as ->.
          destruct (Hn _ _ Hp) as (u & Hu).
          apply (cache_filepath_kinds_apart k url u Hu). }
      assert (Hfail : ∀ y,
                handler k e url w = on_exception (cache_filepath k url) y w1 →
                residents_exist (handler k e url w).2).
      { intros y H. rewrite H.
        destruct (on_exception_run (cache_filepath k url) y w1) as (_ & H2 & _ & H4).
        pose proof (same_globals_trans _ _ _ Hg H2) as Hg'.
        intros k' p Hp. rewrite (same_globals_cached k' _ _ Hg') in Hp.
        apply H4; [exact (Hne k' p Hp) | exact (Hkeep k' p Hp)]. }
      destruct Hcases as [(x & _ & H) | [(_ & _ & H) | (_ & Hin & H)]];
        [exact (Hfail _ H) | exact (Hfail _ H) |].
      rewrite H. intros k' p Hp.
      destruct (remove_old_run (cached_path k w1) w1) as (_ & Hg2 & _ & H4).
      change (p ∈ fs (with_cached k (remove_old (cached_path k w1) w1).2
                        (Some (cache_filepath k url)))).
      destruct (cached_path_with_cached k (remove_old (cached_path k w1) w1).2
                  (Some (cache_filepath k url))) as (Hk1 & Hk2 & _ & Hfs).
      rewrite Hfs.
      assert (Hp' : cached_path k'
                      (with_cached k (remove_old (cached_path k w1) w1).2
                         (Some (cache_filepath k url))) = Some p)
        by (destruct k', k; exact Hp).
      rewrite (same_globals_cached k _ _ Hg) in *.
      destruct (decide (k' = k)) as [->|Hd].
      * rewrite Hk1 in Hp'. injection Hp' as <-.
        apply H4; [|exact Hin].
        apply (lookup_none_not_destination k url _ Hl).
      * apply other_kind in Hd as ->. rewrite Hk2 in Hp'.
        rewrite (same_globals_cached (other k) _ _
                   (same_globals_trans _ _ _ Hg Hg2)) in Hp'.
        apply H4; [|exact (Hkeep _ _ Hp')].
        intros Hsame. destruct (Hn _ _ Hp') as (u & Hu).
        destruct (Hn _ _ Hsame) as (u' & Hu').
        rewrite Hu in Hu'. symmetry in Hu'.
        exact (cache_filepath_kinds_apart k u' u Hu').
  - destruct (truthy (cached_path k w)
              && (time_time e - last_access_time w >? CACHE_EXPIRY_TIME)) eqn:Hb.
    + apply andb_prop in Hb as [Ht Hi].
      destruct (cached_path k w) as [q|] eqn:Hc; [|discriminate].
      rewrite (sweeper_idle k e w q Hc Ht) by (apply Z.lt_gt, Z.gtb_lt, Hi).
      cbn [snd]. destruct (remove_existing_run q w) as (_ & Hg & _ & H4).
      intros k' p Hp.
      change (p ∈ fs (with_cached k (remove_existing q w).2 None)).
      destruct (cached_path_with_cached k (remove_existing q w).2 None)
        as (Hk1 & Hk2 & _ & Hfs).
      rewrite Hfs.
      assert (Hp' : cached_path k' (with_cached k (remove_existing q w).2 None)
                    = Some p) by (destruct k', k; exact Hp).
      destruct (decide (k' = k)) as [->|Hd]; [rewrite Hk1 in Hp'; discriminate|].
      apply other_kind in Hd as ->. rewrite Hk2 in Hp'.
      rewrite (same_globals_cached (other k) _ _ Hg) in Hp'.
      apply H4; [|exact (Hx _ _ Hp')].
      intros ->. destruct (Hn _ _ Hp') as (u & Hu).
      destruct (Hn _ _ Hc) as (u' & Hu'). rewrite Hu in Hu'. symmetry in Hu'.
      exact (cache_filepath_kinds_apart k u' u Hu').
    + rewrite (sweeper_fresh k e w Hb). exact Hx.
Qed.

Lemma run_residents_exist (ops : list op) (w : World) :
  residents_named w → residents_exist w →
  residents_kept ops w = true →
  residents_exist (run ops w).
Proof.
  revert w. induction ops as [|o ops IH]; intros w Hn Hx Hk; [exact Hx|].
  cbn [residents_kept] in Hk. apply andb_prop in Hk as [Ho Hrest].
  apply IH; [apply step_residents_named, Hn | | exact Hrest].
  apply step_residents_exist; [exact Hn | exact Hx |].
  cbn [residents_kept]. now rewrite Ho.
Qed.

(** In every state reached from start-up by requests and sweeps, as long
    as no acquisition along the way deleted a resident file, the file at
    each slot's resident path exists: the handlers and sweepers never
    delete a file a slot still points to. *)
Theorem reachable_residents_exist (e0 : Env) (ops : list op)
    (k : MediaKind) (p : string) :
  residents_kept ops (startup e0) = true →
  cached_path k (run ops (startup e0)) = Some p →
  p ∈ fs (run ops (startup e0)).
Proof.
  intros Hk Hp.
  refine (run_residents_exist ops (startup e0) _ _ Hk k p Hp);
    intros k' q Hq; destruct k'; discriminate.
Qed.

Lemma reachable_residents_exist_witness :
  cached_path Video
    (run [Request Video (scenario_env 100 ydl_writes) "https://x/1";
          Request Audio (scenario_env 200 ydl_writes) "https://x/1";
          Request Video (scenario_env 300 ydl_fails) "https://x/3";
          Sweep Audio (scenario_env 400 ydl_silent);
          Request Video (scenario_env 500 ydl_writes) "https://x/2"]
       (startup (scenario_env 0 ydl_writes)))
  = Some "/tmp/video_cache/2261a33c50b05c275acf523c6e502e53.mp4"
  ∧ "/tmp/video_cache/2261a33c50b05c275acf523c6e502e53.mp4"
    ∈ fs (run [Request Video (scenario_env 100 ydl_writes) "https://x/1";
               Request Audio (scenario_env 200 ydl_writes) "https://x/1";
               Request Video (scenario_env 300 ydl_fails) "https://x/3";
               Sweep Audio (scenario_env 400 ydl_silent);
               Request Video (scenario_env 500 ydl_writes) "https://x/2"]
            (startup (scenario_env 0 ydl_writes))).
Proof.
  split; [compute_done|].
  apply (reachable_residents_exist (scenario_env 0 ydl_writes) _ Video);
    compute_done.
Defined.

(** ** A downloader that obeys its options *)

Lemma append_assoc' (a b c : string) : (a +:+ b) +:+ c = a +:+ b +:+ c.
Proof.
  induction a as [|x a IH]; [reflexivity|].
  change (String x ((a +:+ b) +:+ c) = String x (a +:+ b +:+ c)).
  now rewrite IH.
Qed.

Lemma substring_prefix (a b : string) :
  String.substring 0 (String.length a) (a +:+ b) = a.
Proof.
  induction a as [|x a IH].
  - destruct b; reflexivity.
  - change (String x (String.substring 0 (String.length a) (a +:+ b))
            = String x a).
    now rewrite IH.
Qed.

Lemma drop_last_suffix (a b : string) :
  drop_last (String.length b) (a +:+ b) = a.
Proof.
  unfold drop_last. rewrite append_length.
  replace (String.length a + String.length b - String.length b)%nat
    with (String.length a) by lia.
  apply substring_prefix.
Qed.

(** The audio output template is the destination without [.mp3]. *)
Lemma audio_outtmpl_roundtrip (url : string) :
  drop_last 4 (cache_filepath Audio url) +:+ ".mp3" = cache_filepath Audio url.
Proof.
  rewrite cache_filepath_eq. cbn [cache_filename cache_dir].
  unfold get_audio_cache_filename.
  rewrite <- !append_assoc'.
  now rewrite (drop_last_suffix _ ".mp3").
Qed.

Lemma acquire_obedient (k : MediaKind) (e : Env) (url : string) (w : World) :
  obedient e →
  os_path.join (CONFIG_DIR e) "ffmpeg" ∈ fs w →
  match k, (get_ytdlp_config e w).1 with
  | Video, Ok cfg => cfg !! "postprocessors" = None
  | Video, Raise _ => False
  | Audio, _ => True
  end →
  (acquire k e url w).1 = Ok ()
  ∧ cache_filepath k url ∈ fs (acquire k e url w).2.
Proof.
  intros Hob Hff Hcfg. unfold obedient in Hob.
  assert (Hacq : ∃ w1, acquire k e url w = (Ok (), w1)
                       ∧ cache_filepath k url ∈ fs w1).
  { destruct k; cbn [acquire]; unfold video_acquire, audio_acquire.
    - destruct (get_ytdlp_config e w) as [[cfg|x] w2] eqn:Hc; cbn [fst] in Hcfg;
        [|contradiction].
      exists (with_fs w2 ({[cache_filepath Video url]} ∪ fs w2)).
      split; [|cbn [fs with_fs]; set_solver].
      unfold bind at 1. rewrite (ffmpeg_present e w Hff).
      unfold bind at 1. rewrite Hc.
      unfold YoutubeDL_download. rewrite Hob. unfold ydl_writes.
      rewrite lookup_insert_ne by discriminate. rewrite lookup_insert_eq.
      rewrite !lookup_insert_ne by discriminate. rewrite Hcfg. reflexivity.
    - exists (with_fs w ({[cache_filepath Audio url]} ∪ fs w)).
      split; [|cbn [fs with_fs]; set_solver].
      unfold bind at 1. rewrite (ffmpeg_present e w Hff).
      unfold YoutubeDL_download. rewrite Hob. unfold ydl_writes.
      rewrite !lookup_insert_ne by discriminate. rewrite lookup_insert_eq.
      rewrite lookup_insert_ne by discriminate. rewrite lookup_insert_eq.
      rewrite audio_outtmpl_roundtrip. reflexivity. }
  destruct Hacq as (w1 & -> & Hin). split; [reflexivity | exact Hin].
Qed.

(** With the binary installed and a downloader that writes its output
    where its options say (at [outtmpl]; at [outtmpl] with [.mp3] appended
    when an audio post-processor is configured), every miss succeeds: the
    answer is the destination file of the request with the content type of
    its kind, the file exists, the slot holds it, and the last access time
    is the clock reading of the request. For video the options file must
    load and configure no post-processor; audio does not read it. *)
Theorem obedient_download_succeeds (k : MediaKind) (e : Env) (url : string)
    (w : World) :
  obedient e →
  os_path.join (CONFIG_DIR e) "ffmpeg" ∈ fs w →
  match k, (get_ytdlp_config e w).1 with
  | Video, Ok cfg => cfg !! "postprocessors" = None
  | Video, Raise _ => False
  | Audio, _ => True
  end →
  lookup (cached_path k w) (cache_filename k url) = None →
  (handler k e url w).1
  = Ok (mkFileResponse (cache_filepath k url) (content_type k)
          (cache_filename k url))
  ∧ cached_path k (handler k e url w).2 = Some (cache_filepath k url)
  ∧ cache_filepath k url ∈ fs (handler k e url w).2
  ∧ last_access_time (handler k e url w).2 = time_time e.
Proof.
  intros Hob Hff Hcfg Hl.
  destruct (acquire_obedient k e url w Hob Hff Hcfg) as (Hok & Hin).
  destruct (handler_cases k e url w)
    as [(q & Hq & _) | (_ & w1 & Hg & [(x & Ha & _) | [(Ha & Hn & _) | (Ha & _ & H)]])];
    [congruence | | |]; rewrite Ha in Hok, Hin; cbn [fst snd] in Hok, Hin;
    [discriminate | contradiction |].
  rewrite H. cbn [fst snd]. split; [reflexivity|].
  destruct (remove_old_run (cached_path k w1) w1) as (_ & _ & _ & H4).
  split; [destruct k; reflexivity|]. split; [|destruct k; reflexivity].
  change (cache_filepath k url
          ∈ fs (with_cached k (remove_old (cached_path k w1) w1).2
                  (Some (cache_filepath k url)))).
  destruct (cached_path_with_cached k (remove_old (cached_path k w1) w1).2
              (Some (cache_filepath k url))) as (_ & _ & _ & ->).
  apply H4; [|exact Hin].
  rewrite (same_globals_cached k _ _ Hg).
  apply (lookup_none_not_destination k url _ Hl).
Qed.

Lemma obedient_download_witness :
  (handler Audio (scenario_env 700 ydl_writes) "https://x/7" scenario_world).1
  = Ok (mkFileResponse "/tmp/audio_cache/7df47cf8d5697b1c8c16a075db81eb83.mp3"
          "audio/mpeg" "7df47cf8d5697b1c8c16a075db81eb83.mp3")
  ∧ (handler Video (scenario_env 700 ydl_writes) "https://x/7" scenario_world).1
    = Ok (mkFileResponse "/tmp/video_cache/7df47cf8d5697b1c8c16a075db81eb83.mp4"
            "video/mp4" "7df47cf8d5697b1c8c16a075db81eb83.mp4").
Proof.
  split.
  - destruct (obedient_download_succeeds Audio (scenario_env 700 ydl_writes)
                "https://x/7" scenario_world) as (H & _);
      [reflexivity | compute_done | exact I | compute_done |].
    rewrite H. compute_done.
  - destruct (obedient_download_succeeds Video (scenario_env 700 ydl_writes)
                "https://x/7" scenario_world) as (H & _);
      [reflexivity | compute_done | compute_done | compute_done |].
    rewrite H. compute_done.
Defined.

(** ** Shutdown *)

Lemma startswith_append (a b : string) : startswith (a +:+ b) a = true.
Proof.
  induction a as [|x a IH]; [destruct b; reflexivity|].
  change (Ascii.eqb x x && startswith (a +:+ b) a = true).
  now rewrite Ascii.eqb_refl, IH.
Qed.

Lemma cache_filepath_below (k : MediaKind) (url : string) :
  below (cache_dir k) (cache_filepath k url) = true.
Proof.
  rewrite cache_filepath_eq. unfold below.
  rewrite <- append_assoc', startswith_append. apply orb_true_r.
Qed.

Lemma shutdown_event_run (w : World) (q : string) :
  (shutdown_event w).1 = Ok ()
  ∧ same_globals w (shutdown_event w).2
  ∧ (q ∈ fs (shutdown_event w).2
     ↔ q ∈ fs w ∧ below CACHE_DIR q = false ∧ below AUDIO_CACHE_DIR q = false).
Proof.
  unfold shutdown_event, bind, rmtree, modify. cbn [fst snd fs with_fs].
  split; [reflexivity|]. split; [now unfold same_globals|].
  rewrite !elem_of_filter. tauto.
Qed.

(** Shutdown never raises and removes exactly the two cache directories
    with everything below them: a path exists afterwards iff it existed
    and is neither of the directories nor below one. The globals are not
    reset, so in a state reached from start-up every slot still names its
    resident path although the file is gone. *)
Theorem shutdown_removes_cache_files (e0 : Env) (ops : list op) (q : string) :
  (shutdown_event (run ops (startup e0))).1 = Ok ()
  ∧ (q ∈ fs (shutdown_event (run ops (startup e0))).2
     ↔ q ∈ fs (run ops (startup e0))
       ∧ below CACHE_DIR q = false ∧ below AUDIO_CACHE_DIR q = false)
  ∧ (∀ k p, cached_path k (run ops (startup e0)) = Some p →
       cached_path k (shutdown_event (run ops (startup e0))).2 = Some p
       ∧ p ∉ fs (shutdown_event (run ops (startup e0))).2).
Proof.
  destruct (shutdown_event_run (run ops (startup e0)) q) as (Hok & Hg & Hq).
  split; [exact Hok|]. split; [exact Hq|].
  intros k p Hp. split.
  - rewrite (same_globals_cached k _ _ Hg). exact Hp.
  - assert (Hn : residents_named (run ops (startup e0))).
    { apply run_residents_named. intros k' q' Hq'. destruct k'; discriminate. }
    destruct (Hn k p Hp) as (url & ->).
    destruct (shutdown_event_run (run ops (startup e0)) (cache_filepath k url))
      as (_ & _ & Hiff).
    intros Hin. apply Hiff in Hin as (_ & Hv & Ha).
    pose proof (cache_filepath_below k url) as Hb.
    destruct k; cbn [cache_dir] in Hb; congruence.
Qed.

Lemma shutdown_witness :
  ("/tmp/video_cache/2b6a374db3ab8f57f12fc5ebaf42145e.mp4"
   ∉ fs (shutdown_event
           (run [Request Video (scenario_env 100 ydl_writes) "https://x/1"]
              (startup (scenario_env 0 ydl_writes)))).2)
  ∧ "/config/ffmpeg"
    ∈ fs (shutdown_event
            (run [Request Video (scenario_env 100 ydl_writes) "https://x/1"]
               (startup (scenario_env 0 ydl_writes)))).2.
Proof.
  split.
  - destruct (shutdown_removes_cache_files (scenario_env 0 ydl_writes)
                [Request Video (scenario_env 100 ydl_writes) "https://x/1"]
                "/config/ffmpeg") as (_ & _ & H).
    apply (H Video). compute_done.
  - destruct (shutdown_removes_cache_files (scenario_env 0 ydl_writes)
                [Request Video (scenario_env 100 ydl_writes) "https://x/1"]
                "/config/ffmpeg") as (_ & H & _).
    apply H. split; [compute_done|]. split; compute_done.
Defined.

(** ** The sweeper loop *)

(** A sweeper iteration never raises, so the background loop goes on to
    its next sleep; and a second iteration of the same kind at the same
    clock reading changes nothing more. *)
Theorem sweep_never_raises_idempotent (k : MediaKind) (e : Env) (w : World) :
  (sweeper k e w).1 = Ok ()
  ∧ sweeper k e (sweeper k e w).2 = (Ok (), (sweeper k e w).2).
Proof.
  destruct (truthy (cached_path k w)
            && (time_time e - last_access_time w >? CACHE_EXPIRY_TIME)) eqn:Hb.
  - apply andb_prop in Hb as [Ht Hi].
    destruct (cached_path k w) as [p|] eqn:Hc; [|discriminate].
    rewrite (sweeper_idle k e w p Hc Ht) by (apply Z.lt_gt, Z.gtb_lt, Hi).
    cbn [fst snd]. split; [reflexivity|].
    apply sweeper_fresh. destruct k; reflexivity.
  - rewrite (sweeper_fresh k e w Hb). cbn [fst snd]. split; [reflexivity|].
    apply sweeper_fresh, Hb.
Qed.

(** ** Unsupported platforms *)

Lemma get_ffmpeg_url_supported (e : Env) :
  match get_ffmpeg_url e with
  | Ok u => supported_platform e = true ∧ startswith u FFMPEG_BUILDS_URL = true
  | Raise x => supported_platform e = false ∧ ∃ m, x = ValueError m
  end.
Proof.
  unfold get_ffmpeg_url, supported_platform.
  destruct (String.eqb (lower (platform_system e)) "linux"); cbn [andb];
    [|eauto].
  destruct (String.eqb (lower (platform_machine e)) "x86_64"); cbn [orb].
  { split; [reflexivity | apply startswith_append]. }
  destruct (String.eqb (lower (platform_machine e)) "aarch64"); cbn [orb].
  { split; [reflexivity | apply startswith_append]. }
  destruct (String.eqb (lower (platform_machine e)) "arm64"); cbn [orb].
  { split; [reflexivity | apply startswith_append]. }
  eauto.
Qed.

(** Without an installed binary, on a platform other than Linux on x86_64,
    aarch64 or arm64 (names compared without regard to case), the
    installer raises [ValueError] before it creates or downloads anything,
    and every miss of either kind is answered with status 500 carrying
    that message: the globals are unchanged and the file system differs
    from before at most by the removal of a file already lying at the
    destination path. *)
Theorem unsupported_platform_fails_cleanly (k : MediaKind) (e : Env)
    (url : string) (w : World) :
  supported_platform e = false →
  os_path.join (CONFIG_DIR e) "ffmpeg" ∉ fs w →
  lookup (cached_path k w) (cache_filename k url) = None →
  ∃ m, download_and_extract_ffmpeg e w = (Raise (ValueError m), w)
       ∧ (handler k e url w).1 = Raise (HTTPException 500 m)
       ∧ same_globals w (handler k e url w).2
       ∧ ∀ q, q ∈ fs (handler k e url w).2
              ↔ q ∈ fs w ∧ q ≠ cache_filepath k url.
Proof.
  intros Hu Hff Hl.
  pose proof (get_ffmpeg_url_supported e) as Hs.
  destruct (get_ffmpeg_url e) as [u|x] eqn:Hurl; [destruct Hs; congruence|].
  destruct Hs as (_ & m & ->). exists m.
  assert (Hinst : download_and_extract_ffmpeg e w = (Raise (ValueError m), w)).
  { unfold download_and_extract_ffmpeg. unfold bind at 1. unfold exists_ at 1.
    rewrite (bool_decide_eq_false_2 _ Hff). unfold bind at 1, lift.
    now rewrite Hurl. }
  split; [exact Hinst|].
  assert (Ha : acquire k e url w = (Raise (ValueError m), w)).
  { destruct k; cbn [acquire]; unfold video_acquire, audio_acquire;
      unfold bind at 1; now rewrite Hinst. }
  destruct (handler_cases k e url w)
    as [(p & Hp & _) | (_ & w1 & _ & [(x & Hx & H) | [(Hx & _) | (Hx & _)]])];
    [congruence | | congruence | congruence].
  rewrite Ha in Hx. injection Hx as <- <-. rewrite H.
  destruct (on_exception_run (cache_filepath k url) (ValueError m) w)
    as (H1 & H2 & H3 & H4).
  split; [exact H1|]. split; [exact H2|].
  intros q. destruct (decide (q = cache_filepath k url)) as [->|Hne].
  - split; [intros Hq; contradiction | intros [_ Hq]; contradiction].
  - rewrite (H4 q Hne). tauto.
Qed.

Lemma unsupported_platform_witness :
  (handler Audio
     (mkEnv None "Darwin" "arm64" 50 "/tmp/tmpq1w2e3" (λ _, Ok [])
        (λ _, Ok []) (λ _, Ok default_config) ydl_writes)
     "https://x/1"
     (startup (scenario_env 0 ydl_writes))).1
  = Raise (HTTPException 500 "Unsupported system: darwin").
Proof.
  destruct (unsupported_platform_fails_cleanly Audio
              (mkEnv None "Darwin" "arm64" 50 "/tmp/tmpq1w2e3" (λ _, Ok [])
                 (λ _, Ok []) (λ _, Ok default_config) ydl_writes)
              "https://x/1" (startup (scenario_env 0 ydl_writes)))
    as (m & Hi & H & _); [compute_done | compute_done | compute_done |].
  assert (Hm : m = "Unsupported system: darwin").
  { assert (Hc : download_and_extract_ffmpeg
                   (mkEnv None "Darwin" "arm64" 50 "/tmp/tmpq1w2e3" (λ _, Ok [])
                      (λ _, Ok []) (λ _, Ok default_config) ydl_writes)
                   (startup (scenario_env 0 ydl_writes))
                 = (Raise (ValueError "Unsupported system: darwin"),
                    startup (scenario_env 0 ydl_writes))) by compute_done.
    rewrite Hc in Hi. now injection Hi as <-. }
  rewrite H, Hm. reflexivity.
Defined.

(** ** What a successful request answers *)

(** In a state reached from start-up, a request that succeeds, by a hit or
    by a download, answers with a file directly below the cache directory
    of its kind whose name is the cache name of the URL, announces that
    name as the download file name and the content type of the kind, and
    leaves the slot holding the answered path. *)
Theorem reachable_response_shape (e0 : Env) (ops : list op) (k : MediaKind)
    (e : Env) (url : string) (r : FileResponse) :
  (handler k e url (run ops (startup e0))).1 = Ok r →
  media_type r = content_type k
  ∧ filename r = cache_filename k url
  ∧ os_path.basename (path r) = cache_filename k url
  ∧ os_path.dirname (path r) = cache_dir k
  ∧ cached_path k (handler k e url (run ops (startup e0))).2 = Some (path r).
Proof.
  intros Hr.
  assert (Hn : residents_named (run ops (startup e0))).
  { apply run_residents_named. intros k' q' Hq'. destruct k'; discriminate. }
  destruct (handler_cases k e url (run ops (startup e0)))
    as [(p & Hp & H) | (_ & w1 & Hg & [(x & _ & H) | [(_ & _ & H) | (_ & _ & H)]])];
    rewrite H in Hr |- *.
  - injection Hr as <-. cbn [media_type filename path snd].
    apply lookup_some_iff in Hp as (Hc & _ & Hb).
    destruct (Hn k p Hc) as (u & ->).
    split; [reflexivity|]. split; [reflexivity|]. split; [exact Hb|].
    split; [apply cache_filepath_dirname | destruct k; exact Hc].
  - destruct (on_exception_run (cache_filepath k url) x w1) as (H1 & _).
    rewrite H1 in Hr. discriminate.
  - destruct (on_exception_run (cache_filepath k url)
                (HTTPException 404 (not_found_detail k)) w1) as (H1 & _).
    rewrite H1 in Hr. discriminate.
  - injection Hr as <-. cbn [media_type filename path snd].
    split; [reflexivity|]. split; [reflexivity|].
    split; [apply cache_filepath_basename|].
    split; [apply cache_filepath_dirname | destruct k; reflexivity].
Qed.

Lemma reachable_response_witness :
  os_path.dirname "/tmp/audio_cache/2b6a374db3ab8f57f12fc5ebaf42145e.mp3"
  = "/tmp/audio_cache"
  ∧ os_path.basename "/tmp/audio_cache/2b6a374db3ab8f57f12fc5ebaf42145e.mp3"
    = cache_filename Audio "https://x/1".
Proof.
  destruct (reachable_response_shape (scenario_env 0 ydl_writes)
              [Request Audio (scenario_env 200 ydl_writes) "https://x/1"]
              Audio (scenario_env 300 ydl_fails) "https://x/1"
              (mkFileResponse
                 "/tmp/audio_cache/2b6a374db3ab8f57f12fc5ebaf42145e.mp3"
                 "audio/mpeg" "2b6a374db3ab8f57f12fc5ebaf42145e.mp3"))
    as (_ & _ & Hb & Hd & _); [compute_done|].
  split; [exact Hd | exact Hb].
Defined.

(** ** One clock for both slots *)

Lemma handler_ok_time (k : MediaKind) (e : Env) (url : string) (w : World)
    (r : FileResponse) :
  (handler k e url w).1 = Ok r →
  last_access_time (handler k e url w).2 = time_time e.
Proof.
  intros Hr.
  destruct (handler_cases k e url w)
    as [(p & _ & H) | (_ & w1 & _ & [(x & _ & H) | [(_ & _ & H) | (_ & _ & H)]])];
    rewrite H in Hr |- *; try (destruct k; reflexivity).
  - destruct (on_exception_run (cache_filepath k url) x w1) as (H1 & _).
    rewrite H1 in Hr. discriminate.
  - destruct (on_exception_run (cache_filepath k url)
                (HTTPException 404 (not_found_detail k)) w1) as (H1 & _).
    rewrite H1 in Hr. discriminate.
Qed.

(** A request of either kind that succeeds at clock reading [t] postpones
    the expiry of both slots: a following sweep of either kind at a
    reading up to [t + 900] changes nothing, and one at a later reading
    evicts the resident of its slot, removing its file. *)
Theorem success_postpones_both_expiries (k k' : MediaKind) (e e' : Env)
    (url : string) (w : World) (r : FileResponse) :
  (handler k e url w).1 = Ok r →
  (time_time e' - time_time e ≤ CACHE_EXPIRY_TIME →
   sweeper k' e' (handler k e url w).2 = (Ok (), (handler k e url w).2))
  ∧ (time_time e' - time_time e > CACHE_EXPIRY_TIME →
     ∀ p, cached_path k' (handler k e url w).2 = Some p →
          truthy (Some p) = true →
          cached_path k' (sweeper k' e' (handler k e url w).2).2 = None
          ∧ p ∉ fs (sweeper k' e' (handler k e url w).2).2).
Proof.
  intros Hr. pose proof (handler_ok_time k e url w r Hr) as Ht. split.
  - intros Hle. apply sweeper_fresh. rewrite Ht.
    destruct (Z.gtb_spec (time_time e' - time_time e) CACHE_EXPIRY_TIME);
      [lia | apply andb_false_r].
  - intros Hgt p Hp Hty.
    rewrite (sweeper_idle k' e' _ p Hp Hty) by (rewrite Ht; exact Hgt).
    cbn [snd]. destruct (remove_existing_run p (handler k e url w).2)
      as (_ & _ & Hgone & _).
    split; destruct k'; [reflexivity | reflexivity | exact Hgone | exact Hgone].
Qed.

Lemma success_postpones_witness :
  sweeper Video (scenario_env 1100 ydl_silent) scenario_world
  = (Ok (), scenario_world)
  ∧ cached_path Video
      (sweeper Video (scenario_env 1101 ydl_silent) scenario_world).2 = None.
Proof.
  destruct (success_postpones_both_expiries Audio Video
              (scenario_env 200 ydl_writes) (scenario_env 1100 ydl_silent)
              "https://x/1"
              (download_video (scenario_env 100 ydl_writes) "https://x/1"
                 (startup (scenario_env 0 ydl_writes))).2
              (mkFileResponse
                 "/tmp/audio_cache/2b6a374db3ab8f57f12fc5ebaf42145e.mp3"
                 "audio/mpeg" "2b6a374db3ab8f57f12fc5ebaf42145e.mp3"))
    as (Hkeep & _); [compute_done|].
  destruct (success_postpones_both_expiries Audio Video
              (scenario_env 200 ydl_writes) (scenario_env 1101 ydl_silent)
              "https://x/1"
              (download_video (scenario_env 100 ydl_writes) "https://x/1"
                 (startup (scenario_env 0 ydl_writes))).2
              (mkFileResponse
                 "/tmp/audio_cache/2b6a374db3ab8f57f12fc5ebaf42145e.mp3"
                 "audio/mpeg" "2b6a374db3ab8f57f12fc5ebaf42145e.mp3"))
    as (_ & Hevict); [compute_done|].
  split.
  - apply Hkeep. compute_done.
  - apply (Hevict ltac:(compute_done)
             "/tmp/video_cache/2b6a374db3ab8f57f12fc5ebaf42145e.mp4");
      compute_done.
Defined.

(** ** Requests are told apart by cache name only *)

(** After a request for [u1] that missed and succeeded, a request of the
    same kind for any URL [u2] with the same cache name is a hit: it is
    answered from the file downloaded for [u1], under any environment,
    with nothing downloaded and only the last access time changed. *)
Theorem same_name_served_from_cache (k : MediaKind) (e : Env) (u1 u2 : string)
    (w : World) (r : FileResponse) :
  cache_filename k u1 = cache_filename k u2 →
  lookup (cached_path k w) (cache_filename k u1) = None →
  (handler k e u1 w).1 = Ok r →
  ∀ e2,
    handler k e2 u2 (handler k e u1 w).2
    = (Ok (mkFileResponse (cache_filepath k u1) (content_type k)
             (cache_filename k u2)),
       with_time (handler k e u1 w).2 (time_time e2)).
Proof.
  intros Hname Hl Hr%handler_ok_pair e2.
  destruct (handler_ok_after_miss k e u1 w r _ Hl Hr)
    as (w1 & _ & _ & _ & _ & Hw).
  assert (Hlk : lookup (cached_path k (handler k e u1 w).2)
                  (cache_filename k u2) = Some (cache_filepath k u1)).
  { rewrite Hw, <- Hname.
    destruct (cached_path_with_cached k (remove_old (cached_path k w) w1).2
                (Some (cache_filepath k u1))) as (Hk & _).
    replace (cached_path k
               (with_time
                  (with_cached k (remove_old (cached_path k w) w1).2
                     (Some (cache_filepath k u1))) (time_time e)))
      with (Some (cache_filepath k u1)) by (destruct k; symmetry; exact Hk).
    apply lookup_cache_filepath. }
  rewrite handler_of_try. now rewrite (try_body_hit k e2 u2 _ _ Hlk).
Qed.

Lemma same_name_witness :
  (handler Video (scenario_env 900 ydl_fails)
     "TEXTCOLLBYfGiJUETHQ4hEcKSMd5zYpgqf1YRDhkmxHkhPWptrkoyz28wnI9V0aHeAuaKnak"
     (handler Video (scenario_env 800 ydl_writes)
        "TEXTCOLLBYfGiJUETHQ4hAcKSMd5zYpgqf1YRDhkmxHkhPWptrkoyz28wnI9V0aHeAuaKnak"
        scenario_world).2).1
  = Ok (mkFileResponse "/tmp/video_cache/faad49866e9498fc1719f5289e7a0269.mp4"
          "video/mp4" "faad49866e9498fc1719f5289e7a0269.mp4").
Proof.
  rewrite (same_name_served_from_cache Video (scenario_env 800 ydl_writes)
             "TEXTCOLLBYfGiJUETHQ4hAcKSMd5zYpgqf1YRDhkmxHkhPWptrkoyz28wnI9V0aHeAuaKnak"
             "TEXTCOLLBYfGiJUETHQ4hEcKSMd5zYpgqf1YRDhkmxHkhPWptrkoyz28wnI9V0aHeAuaKnak"
             scenario_world
             (mkFileResponse
                "/tmp/video_cache/faad49866e9498fc1719f5289e7a0269.mp4"
                "video/mp4" "faad49866e9498fc1719f5289e7a0269.mp4")
             ltac:(compute_done) ltac:(compute_done) ltac:(compute_done)
             (scenario_env 900 ydl_fails)).
  compute_done.
Defined.

(** ** Installing from scratch *)

(** When the binary is not yet installed and the installer returns
    normally, the platform is a supported one, the returned path is
    [ffmpeg] in the configuration directory and exists, the globals are
    untouched, and the temporary directory is gone with everything below
    it. *)
Theorem fresh_install_cleans_up (e : Env) (w : World) (p : string) :
  os_path.join (CONFIG_DIR e) "ffmpeg" ∉ fs w →
  (download_and_extract_ffmpeg e w).1 = Ok p →
  p = os_path.join (CONFIG_DIR e) "ffmpeg"
  ∧ p ∈ fs (download_and_extract_ffmpeg e w).2
  ∧ supported_platform e = true
  ∧ same_globals w (download_and_extract_ffmpeg e w).2
  ∧ ∀ q, below (tempfile_mkdtemp e) q = true →
         q ∉ fs (download_and_extract_ffmpeg e w).2.
Proof.
  intros Hout Hp.
  assert (H : download_and_extract_ffmpeg e w
              = (Ok p, (download_and_extract_ffmpeg e w).2)).
  { destruct (download_and_extract_ffmpeg e w) as [r w']. cbn in *. now subst. }
  pose proof (fs_only_ffmpeg e w) as Hg.
  destruct (ffmpeg_ok_present e w p _ H) as (-> & Hin).
  split; [reflexivity|]. split; [exact Hin|].
  revert H Hg. generalize (download_and_extract_ffmpeg e w).2 as w'.
  intros w' H Hg. clear Hp Hin.
  unfold download_and_extract_ffmpeg in H. unfold bind at 1 in H.
  unfold exists_ at 1 in H. rewrite (bool_decide_eq_false_2 _ Hout) in H.
  repeat (apply bind_ok_inv in H as (? & ? & ? & H)).
  unfold raise, ret in H.
  match goal with
  | Hx : exists_ _ _ = (Ok _, _) |- _ =>
      unfold exists_ in Hx; injection Hx as <- <-
  end.
  match type of H with
  | (if negb ?b then _ else _) _ = _ =>
      destruct b; cbn [negb] in H; [|discriminate]
  end.
  injection H as <-.
  repeat match goal with
         | Hx : rmtree _ _ = (Ok _, _) |- _ =>
             unfold rmtree, modify in Hx; injection Hx as <- <-
         | Hx : lift (get_ffmpeg_url e) _ = (Ok _, _) |- _ =>
             unfold lift in Hx; injection Hx as Hurl <-
         end.
  split; [|split; [exact Hg|]].
  - pose proof (get_ffmpeg_url_supported e) as Hs. rewrite Hurl in Hs. apply Hs.
  - intros q Hq. cbn [fs with_fs]. rewrite elem_of_filter. intros [Hf _].
    congruence.
Qed.

Lemma fresh_install_witness :
  (download_and_extract_ffmpeg (scenario_env 0 ydl_silent)
     (startup (scenario_env 0 ydl_silent))).1 = Ok "/config/ffmpeg"
  ∧ "/config/ffmpeg"
    ∈ fs (download_and_extract_ffmpeg (scenario_env 0 ydl_silent)
            (startup (scenario_env 0 ydl_silent))).2
  ∧ ("/tmp/tmpq1w2e3/ffmpeg.archive"
     ∉ fs (download_and_extract_ffmpeg (scenario_env 0 ydl_silent)
             (startup (scenario_env 0 ydl_silent))).2).
Proof.
  split; [compute_done|].
  destruct (fresh_install_cleans_up (scenario_env 0 ydl_silent)
              (startup (scenario_env 0 ydl_silent)) "/config/ffmpeg")
    as (_ & Hin & _ & _ & Hgone); [compute_done | compute_done |].
  split; [exact Hin | apply Hgone; compute_done].
Defined.

(** ** The options handed to the video downloader *)

(** With the binary installed and an options file that loads, the video
    downloader is run on the world the loading left, with options in which
    [outtmpl] is the destination path of the request and
    [ffmpeg_location] the directory of the binary, whatever the file says
    for these two keys; every other option is as the file has it. *)
Theorem video_options_override (e : Env) (url : string) (w : World)
    (cfg : gmap string pyval) :
  os_path.join (CONFIG_DIR e) "ffmpeg" ∈ fs w →
  (get_ytdlp_config e w).1 = Ok cfg →
  ∃ opts,
    acquire Video e url w
    = YoutubeDL_download e opts url (get_ytdlp_config e w).2
    ∧ opts !! "outtmpl" = Some (PStr (cache_filepath Video url))
    ∧ opts !! "ffmpeg_location"
      = Some (PStr (os_path.dirname (os_path.join (CONFIG_DIR e) "ffmpeg")))
    ∧ ∀ key, key ≠ "outtmpl" → key ≠ "ffmpeg_location" →
             opts !! key = cfg !! key.
Proof.
  intros Hff Hcfg.
  exists (<["ffmpeg_location" :=
             PStr (os_path.dirname (os_path.join (CONFIG_DIR e) "ffmpeg"))]>
            (<["outtmpl" := PStr (cache_filepath Video url)]> cfg)).
  split; [|split; [|split]].
  - cbn [acquire]. unfold video_acquire. unfold bind at 1.
    rewrite (ffmpeg_present e w Hff). unfold bind at 1.
    destruct (get_ytdlp_config e w) as [[c|x] w2]; cbn [fst snd] in *;
      [|discriminate].
    now injection Hcfg as ->.
  - rewrite lookup_insert_ne by discriminate. apply lookup_insert_eq.
  - apply lookup_insert_eq.
  - intros key H1 H2. rewrite !lookup_insert_ne by congruence. reflexivity.
Qed.

Lemma video_options_witness :
  ∃ opts,
    acquire Video
      (scenario_env_config
         (<["outtmpl" := PStr "/etc/passwd"]> (<["format" := PStr "worst"]> ∅)))
      "https://x/2" scenario_world
    = YoutubeDL_download
        (scenario_env_config
           (<["outtmpl" := PStr "/etc/passwd"]> (<["format" := PStr "worst"]> ∅)))
        opts "https://x/2"
        (get_ytdlp_config
           (scenario_env_config
              (<["outtmpl" := PStr "/etc/passwd"]>
                 (<["format" := PStr "worst"]> ∅)))
           scenario_world).2
    ∧ opts !! "outtmpl"
      = Some (PStr "/tmp/video_cache/2261a33c50b05c275acf523c6e502e53.mp4")
    ∧ opts !! "format" = Some (PStr "worst").
Proof.
  destruct (video_options_override
              (scenario_env_config
                 (<["outtmpl" := PStr "/etc/passwd"]>
                    (<["format" := PStr "worst"]> ∅)))
              "https://x/2" scenario_world
              (<["outtmpl" := PStr "/etc/passwd"]>
                 (<["format" := PStr "worst"]> ∅)))
    as (opts & Ha & Ho & _ & Hrest); [compute_done | compute_done |].
  exists opts. split; [exact Ha|]. split.
  - rewrite Ho. do 2 f_equal; try compute_done.
  - rewrite (Hrest "format") by discriminate. compute_done.
Defined.
